(** * zerox: the OCR-to-Markdown pipeline orchestrator

    A shallow embedding of [py_zerox/zerox/core/zerox.py] and the properties
    its specification states about it.

    The orchestrator is one coroutine, [zerox].  Everything it awaits is
    sequential from its own point of view, so the coroutine is embedded as a
    computation in a state-and-exception monad over a model of the file
    system.  The collaborators it imports from sibling packages
    ([download_file], [convert_pdf_to_images], [process_page],
    [process_pages_in_batches]) and from the Python runtime are fields of
    the record [Externals].

    A Python [str] is a [string], one [ascii] per character; a Python [int]
    is a [Z]; an [Optional[str]] is an [option string]. *)

From Stdlib Require Import ZArith Ascii Lia.
From Stdlib Require String.
From stdpp Require Import base option list sorting gmap strings.

Local Open Scope Z_scope.

(** ** Python values used by the orchestrator *)

Module Py.

(** Truthiness of an [Optional[str]]: [None] and [""] are falsy. *)
Definition truthy (o : option string) : bool :=
  match o with
  | Some s => negb (String.eqb s "")
  | None => false
  end.

(** [a or b] on strings. *)
Definition str_or (a b : string) : string :=
  if String.eqb a "" then b else a.

(** [s.startswith(p)] *)
Definition startswith (s p : string) : bool := String.prefix p s.

(** [s.endswith(p)] *)
Definition endswith (s p : string) : bool :=
  (String.length p <=? String.length s)%nat
  && String.eqb (String.substring (String.length s - String.length p)
                                  (String.length p) s) p.

(** [s.rfind(c)] for a one-character [c]: index of the last occurrence,
    [-1] when there is none. *)
Fixpoint rfind_from (c : ascii) (s : string) (i last : Z) : Z :=
  match s with
  | EmptyString => last
  | String d s' => rfind_from c s' (i + 1) (if Ascii.eqb d c then i else last)
  end.

Definition rfind (s : string) (c : ascii) : Z := rfind_from c s 0 (-1).

(** [s[i:]] and [s[:i]] for [0 <= i]. *)
Definition slice_from (s : string) (i : Z) : string :=
  String.substring (Z.to_nat i) (String.length s - Z.to_nat i) s.

Definition slice_to (s : string) (i : Z) : string :=
  String.substring 0 (Z.to_nat i) s.

(** [sep.join(parts)] *)
Definition join (sep : string) (parts : list string) : string :=
  String.concat sep parts.

(** [sum(xs)] on integers. *)
Definition sum (xs : list Z) : Z := fold_left Z.add xs 0.

(** [enumerate(xs)] *)
Fixpoint enumerate_from {A} (i : Z) (xs : list A) : list (Z * A) :=
  match xs with
  | [] => []
  | x :: xs' => (i, x) :: enumerate_from (i + 1) xs'
  end.

Definition enumerate {A} (xs : list A) : list (Z * A) := enumerate_from 0 xs.

(** [len(s)] *)
Definition len (s : string) : Z := Z.of_nat (String.length s).

End Py.

(** ** [os.path] on POSIX *)

Module OsPath.

(** [posixpath.join(a, b)] *)
Definition join (a b : string) : string :=
  if Py.startswith b "/" then b
  else if String.eqb a "" || Py.endswith a "/" then a +:+ b
  else a +:+ "/" +:+ b.

(** [posixpath.basename(p)] *)
Definition basename (p : string) : string :=
  Py.slice_from p (Py.rfind p "/"%char + 1).

(** The loop of [genericpath._splitext] that skips leading dots: is there a
    character other than ["."] among the [count] characters from
    [filenameIndex] on? *)
Fixpoint has_non_dot (p : string) (filenameIndex count : nat) : bool :=
  match count with
  | O => false
  | S count' =>
      match String.get filenameIndex p with
      | Some c =>
          if Ascii.eqb c "."%char then has_non_dot p (S filenameIndex) count'
          else true
      | None => true
      end
  end.

(** [posixpath.splitext(p)] *)
Definition splitext (p : string) : string * string :=
  let sepIndex := Py.rfind p "/"%char in
  let dotIndex := Py.rfind p "."%char in
  if (sepIndex <? dotIndex)
     && has_non_dot p (Z.to_nat (sepIndex + 1))
                    (Z.to_nat (dotIndex - (sepIndex + 1)))
  then (Py.slice_to p dotIndex, Py.slice_from p dotIndex)
  else (p, "").

End OsPath.

(** ** The file system

    A directory is identified by its path; a regular file by its path and
    its content.  The operating-system calls of the orchestrator are total
    on this model: failures of the operating system itself are outside it.
    A run of the model stands for a run in which [os.makedirs],
    [os.listdir], [open] and [write], [shutil.rmtree] and the awaited page
    processors do not raise; the properties below are about such runs and
    say nothing of a run in which one of these calls fails. *)

Record FS := {
  dirs : gset string;
  files : gmap string string;
}.

Module Os.

(** [p] is [d] or lies below [d]. *)
Definition is_under (d p : string) : bool :=
  String.eqb p d || Py.startswith p (d +:+ "/").

(** [os.path.exists(p)] *)
Definition path_exists (p : string) (fs : FS) : bool :=
  bool_decide (p ∈ dirs fs) || bool_decide (is_Some (files fs !! p)).

(** [os.makedirs(p, exist_ok=True)] *)
Definition makedirs (p : string) (fs : FS) : FS :=
  {| dirs := {[p]} ∪ dirs fs; files := files fs |}.

(** [open(p, "w")] followed by [write(text)]: the file is created, or
    truncated when it exists, and holds [text]. *)
Definition write_file (p text : string) (fs : FS) : FS :=
  {| dirs := dirs fs; files := <[p := text]> (files fs) |}.

(** [shutil.rmtree(d)] *)
Definition rmtree (d : string) (fs : FS) : FS :=
  {| dirs := filter (λ p, is_under d p = false) (dirs fs);
     files := filter (λ kv, is_under d kv.1 = false) (files fs) |}.

End Os.

(** ** Exceptions and the monad of the coroutine *)

Inductive exn :=
  | FileUnavailable
  | OtherError (what : string).

Inductive outcome (A : Type) :=
  | Return (a : A)
  | Raise (e : exn).
Arguments Return {A} a.
Arguments Raise {A} e.

(** A computation reads and changes the file system and either returns or
    raises; what it did to the file system before raising stays done. *)
Definition M (A : Type) : Type := FS → outcome A * FS.

Definition ret {A} (a : A) : M A := λ fs, (Return a, fs).

Definition raise {A} (e : exn) : M A := λ fs, (Raise e, fs).

Definition bind {A B} (c : M A) (k : A → M B) : M B :=
  λ fs, match c fs with
        | (Return a, fs') => k a fs'
        | (Raise e, fs') => (Raise e, fs')
        end.

(** An operating-system call that only changes the file system. *)
Definition os_call (f : FS → FS) : M unit := λ fs, (Return tt, f fs).

(** An operating-system call that only reads the file system. *)
Definition os_read {A} (f : FS → A) : M A := λ fs, (Return (f fs), fs).

(** A call that may raise and leaves the file system alone. *)
Definition call {A} (o : outcome A) : M A := λ fs, (o, fs).

Declare Scope coroutine_scope.
Delimit Scope coroutine_scope with coroutine.
Notation "x <- c ;; k" := (bind c (λ x, k))
  (at level 100, c at next level, right associativity) : coroutine_scope.
Notation "c ;;; k" := (bind c (λ _, k))
  (at level 100, right associativity) : coroutine_scope.

(** ** Types of the package ([.types]) and arguments of [zerox] *)

Module Types.

Record Page := {
  content : string;
  page : Z;
  content_length : Z;
}.

Record ZeroxOutput := {
  completion_time : Z;
  file_name : string;
  input_tokens : Z;
  output_tokens : Z;
  pages : list Page;
}.

End Types.

(** The keyword arguments of [zerox]. *)
Record Args := {
  cleanup : bool;
  concurrency : Z;
  file_path : option string;
  maintain_format : bool;
  model : string;
  output_dir : option string;
  temp_dir : string;
  custom_system_prompt : option string;
  kwargs : list (string * string);
}.

(** The object [litellmmodel(model=..., **kwargs)] builds; [zerox] only
    assigns its [system_prompt]. *)
Record VisionModel := {
  vm_model : string;
  vm_kwargs : list (string * string);
  system_prompt : string;
}.

Definition set_system_prompt (vm : VisionModel) (prompt : string) : VisionModel :=
  {| vm_model := vm_model vm; vm_kwargs := vm_kwargs vm; system_prompt := prompt |}.

(** What [process_page] returns:
    [(result, input_token_count, output_token_count, prior_page)], where
    [result] is a string or [None]. *)
Definition page_return : Type := option string * Z * Z * string.

(** One entry of what [process_pages_in_batches] returns; [zerox] reads
    [result[0]], [result[1]] and [result[2]]. *)
Definition batch_entry : Type := option string * Z * Z.

(** ** What [zerox] imports

    The collaborators of the orchestrator.  Times are the readings of
    [datetime.now()] in milliseconds.  [isalnum] and [lower] are
    [str.isalnum] and [str.lower] on one character.  [listdir] is the
    enumeration of a directory, in the order the operating system gives. *)
Record Externals := {
  gettempdir : string;
  start_time : Z;
  end_time : Z;
  isalnum : ascii → bool;
  lower : ascii → string;
  listdir : string → FS → list string;
  download_file : string → string → M (option string);
  convert_pdf_to_images : string → string → M unit;
  litellmmodel : string → list (string * string) → outcome VisionModel;
  process_page :
    string → VisionModel → string → Z → Z → string → page_return;
  process_pages_in_batches :
    list string → Z → VisionModel → string → Z → Z → string → list batch_entry;
}.

(** ** The orchestrator ([zerox.py]) *)

Section Orchestrator.

Variable E : Externals.

Local Open Scope coroutine_scope.

(** The blank line between two pages of the persisted Markdown. *)
Definition blank_line : string :=
  String (ascii_of_nat 10) (String (ascii_of_nat 10) EmptyString).

(** Line 73: [os.path.join(temp_dir or tempfile.gettempdir(), "zerox-temp")] *)
Definition temp_directory (a : Args) : string :=
  OsPath.join (Py.str_or (temp_dir a) (gettempdir E)) "zerox-temp".

(** Line 81: [os.path.splitext(os.path.basename(local_path))[0]] *)
Definition raw_file_name (local_path : string) : string :=
  (OsPath.splitext (OsPath.basename local_path)).1.

(** Line 82:
    ["".join(c.lower() if c.isalnum() else "_" for c in raw_file_name)] *)
Definition file_name (raw_file_name : string) : string :=
  Py.join ""
    (map (λ c, if isalnum E c then lower E c else "_")
         (String.list_ascii_of_string raw_file_name)).

(** Lines 88-92: the [.png] entries of the working directory, in the
    order the directory is enumerated. *)
Definition images (temp_directory : string) (fs : FS) : list string :=
  map (λ f, temp_directory +:+ "/" +:+ f)
      (List.filter (λ f, Py.endswith f ".png") (listdir E temp_directory fs)).

(** Lines 102-112: the loop of the [maintain_format] branch. *)
Fixpoint maintain_format_loop (vision_model : VisionModel)
    (temp_directory : string) (images : list string)
    (aggregated_markdown : list string)
    (input_token_count output_token_count : Z) (prior_page : string)
    : list string * Z * Z * string :=
  match images with
  | [] =>
      (aggregated_markdown, input_token_count, output_token_count, prior_page)
  | image :: images' =>
      let '(result, input_token_count, output_token_count, prior_page) :=
        process_page E image vision_model temp_directory
          input_token_count output_token_count prior_page in
      let aggregated_markdown :=
        if Py.truthy result then aggregated_markdown ++ [default "" result]
        else aggregated_markdown in
      maintain_format_loop vision_model temp_directory images'
        aggregated_markdown input_token_count output_token_count prior_page
  end.

(** The calls of [process_page] the loop makes, in the order it makes
    them: the arguments that vary from call to call, and what the call
    returned. *)
Record Call := {
  call_image : string;
  call_input_token_count : Z;
  call_output_token_count : Z;
  call_prior_page : string;
  call_return : page_return;
}.

Fixpoint process_page_calls (vision_model : VisionModel)
    (temp_directory : string) (images : list string)
    (input_token_count output_token_count : Z) (prior_page : string)
    : list Call :=
  match images with
  | [] => []
  | image :: images' =>
      let returned :=
        process_page E image vision_model temp_directory
          input_token_count output_token_count prior_page in
      {| call_image := image;
         call_input_token_count := input_token_count;
         call_output_token_count := output_token_count;
         call_prior_page := prior_page;
         call_return := returned |}
      :: process_page_calls vision_model temp_directory images'
           returned.1.1.2 returned.1.2 returned.2
  end.

(** The result of a call, when it is truthy. *)
Definition call_text (c : Call) : option string :=
  let result := (call_return c).1.1.1 in
  if Py.truthy result then result else None.

(** Lines 101-128: both branches of the processing step.  Returns
    [(aggregated_markdown, input_token_count, output_token_count)]. *)
Definition process_pages (a : Args) (vision_model : VisionModel)
    (temp_directory : string) (images : list string)
    (input_token_count output_token_count : Z) (prior_page : string)
    : list string * Z * Z :=
  if maintain_format a then
    let '(aggregated_markdown, input_token_count, output_token_count, _) :=
      maintain_format_loop vision_model temp_directory images []
        input_token_count output_token_count prior_page in
    (aggregated_markdown, input_token_count, output_token_count)
  else
    let results :=
      process_pages_in_batches E images (concurrency a) vision_model
        temp_directory input_token_count output_token_count prior_page in
    let aggregated_markdown := omap (λ result : batch_entry, result.1.1) results in
    let input_token_count :=
      input_token_count + Py.sum (map (λ result : batch_entry, result.1.2) results) in
    let output_token_count :=
      output_token_count + Py.sum (map (λ result : batch_entry, result.2) results) in
    (aggregated_markdown, input_token_count, output_token_count).

(** Lines 143-146 *)
Definition formatted_pages (aggregated_markdown : list string) : list Types.Page :=
  map (λ '(i, content),
         {| Types.content := content;
            Types.page := i + 1;
            Types.content_length := Py.len content |})
      (Py.enumerate aggregated_markdown).

(** Line 132 *)
Definition result_file_path (output_dir file_name : string) : string :=
  OsPath.join output_dir (file_name +:+ ".md").

(** Lines 130-134: persist the aggregated Markdown. *)
Definition persist (a : Args) (file_name : string)
    (aggregated_markdown : list string) : M unit :=
  if Py.truthy (output_dir a) then
    os_call (Os.write_file
               (result_file_path (default "" (output_dir a)) file_name)
               (Py.join blank_line aggregated_markdown))
  else ret tt.

(** Lines 136-138: remove the working directory. *)
Definition remove_temp (a : Args) (temp_directory : string) : M unit :=
  temp_exists <- os_read (Os.path_exists temp_directory) ;;
  if cleanup a && temp_exists then os_call (Os.rmtree temp_directory)
  else ret tt.

(** Lines 64-79, the step RESOLVE_INPUT: validate [file_path], create the
    output and the working directory, download.  Returns [local_path]. *)
Definition resolve_input (a : Args) : M string :=
  (* File Path Validators *)
  if negb (Py.truthy (file_path a)) then raise FileUnavailable else
  (* Ensure the output directory exists *)
  (if Py.truthy (output_dir a)
   then os_call (Os.makedirs (default "" (output_dir a)))
   else ret tt) ;;;
  (* Create a temporary directory to store the PDF and images *)
  let temp_directory := temp_directory a in
  os_call (Os.makedirs temp_directory) ;;;
  (* Download the PDF. Get file name. *)
  local_path <- download_file E (default "" (file_path a)) temp_directory ;;
  if negb (Py.truthy local_path) then raise FileUnavailable else
  ret (default "" local_path).

(** Lines 84-92, the step RASTERIZE.  Returns [images]. *)
Definition rasterize (a : Args) (local_path : string) : M (list string) :=
  let temp_directory := temp_directory a in
  (* Convert the file to a series of images *)
  convert_pdf_to_images E local_path temp_directory ;;;
  (* Get list of converted images *)
  os_read (images temp_directory).

(** Lines 94-99: the model object, with the custom system prompt when one
    is given. *)
Definition make_vision_model (a : Args) : outcome VisionModel :=
  (* Create an instance of the litellm model interface *)
  match litellmmodel E (model a) (kwargs a) with
  | Return vision_model =>
      (* override the system prompt if a custom prompt is provided *)
      Return
        (if Py.truthy (custom_system_prompt a)
         then set_system_prompt vision_model
                (default "" (custom_system_prompt a))
         else vision_model)
  | Raise e => Raise e
  end.

(** Lines 21-154 *)
Definition zerox (a : Args) : M Types.ZeroxOutput :=
  let input_token_count := 0 in
  let output_token_count := 0 in
  let prior_page := "" in
  let start_time := start_time E in
  local_path <- resolve_input a ;;
  let temp_directory := temp_directory a in
  let raw_file_name := raw_file_name local_path in
  let file_name := file_name raw_file_name in
  images <- rasterize a local_path ;;
  vision_model <- call (make_vision_model a) ;;
  let '(aggregated_markdown, input_token_count, output_token_count) :=
    process_pages a vision_model temp_directory images
      input_token_count output_token_count prior_page in
  (* Write the aggregated markdown to a file *)
  persist a file_name aggregated_markdown ;;;
  (* Cleanup the downloaded PDF file *)
  remove_temp a temp_directory ;;;
  (* Format JSON response *)
  let end_time := end_time E in
  let completion_time := end_time - start_time in
  ret {| Types.completion_time := completion_time;
         Types.file_name := file_name;
         Types.input_tokens := input_token_count;
         Types.output_tokens := output_token_count;
         Types.pages := formatted_pages aggregated_markdown |}.

(** The run up to the enumeration of the page images (lines 64-92). *)
Definition page_images (a : Args) : M (list string) :=
  local_path <- resolve_input a ;;
  rasterize a local_path.

End Orchestrator.

(** ** The page processor and the batch scheduler, from the specification

    [..processor] is not among the sources of the orchestrator.  The two
    functions [zerox] calls from it are modelled from sections 4.1 to 4.3
    and 5 of the specification, over the capability of the Model Adapter. *)

Module Spec.

(** The Model Adapter of section 4.1: given the model object, an image and
    the prior-page text, the generated text and the input and output token
    counts the provider reports, or [None] when the call fails. *)
Definition adapter : Type :=
  VisionModel → string → string → option (string * Z * Z).

(** Modelled from the spec: [process_page], the Page Processor of section
    4.2, which is missing from the sources.  It passes the prior-page text
    to the Model Adapter and returns the new output as the updated prior
    context; the token tally grows by what the provider reports for the
    page; a failure is caught and the page contributes no content. *)
Definition process_page (complete : adapter) (image : string)
    (model : VisionModel) (temp_directory : string)
    (input_token_count output_token_count : Z) (prior_page : string)
    : page_return :=
  match complete model image prior_page with
  | Some (markdown, input_tokens, output_tokens) =>
      (Some markdown, input_token_count + input_tokens,
       output_token_count + output_tokens, markdown)
  | None => (None, input_token_count, output_token_count, prior_page)
  end.

(** Sequential batches of size [size]: [fuel] bounds their number. *)
Fixpoint batches_upto {A} (fuel size : nat) (l : list A) : list (list A) :=
  match fuel with
  | O => []
  | S fuel' =>
      match l with
      | [] => []
      | _ :: _ => take size l :: batches_upto fuel' size (drop size l)
      end
  end.

Definition batches {A} (size : nat) (l : list A) : list (list A) :=
  batches_upto (length l) size l.

(** The pages of a list with their page index. *)
Definition numbered {A} (l : list A) : list (nat * A) :=
  zip (seq 0 (length l)) l.

(** Orders on numbered pages: by completion latency, and by page index. *)
Definition earlier {A} (latency : nat → nat) : relation (nat * A) :=
  λ t u, (latency t.1 ≤ latency u.1)%nat.

Definition before {B} : relation (nat * B) :=
  λ t u, (t.1 ≤ u.1)%nat.

#[global] Instance earlier_dec {A} latency (t u : nat * A) :
  Decision (earlier latency t u).
Proof. unfold earlier. apply _. Defined.

#[global] Instance before_dec {B} (t u : nat * B) : Decision (before t u).
Proof. unfold before. apply _. Defined.

(** The pages of one batch are processed concurrently: they settle in the
    order of their completion latency. *)
Definition settle_batch {A B} (latency : nat → nat) (task : A → B)
    (batch : list (nat * A)) : list (nat * B) :=
  map (λ t, (t.1, task t.2)) (merge_sort (earlier latency) batch).

(** Final aggregation reorders the settled pages by page index. *)
Definition reorder_by_page_index {B} (settled : list (nat * B)) : list B :=
  map snd (merge_sort before settled).

(** Modelled from the spec: [process_pages_in_batches], the Batch
    Scheduler of section 4.3, which is missing from the sources.  The
    image list is split into sequential batches of size [concurrency];
    batches run one after another and the pages of a batch settle in the
    order of [latency], the completion latency of each page; every page
    is one call of [process_page] on the counts and the prior page the
    scheduler was given; the final result is reordered by page index. *)
Definition process_pages_in_batches (complete : adapter)
    (latency : nat → nat) (images : list string) (concurrency : Z)
    (model : VisionModel) (temp_directory : string)
    (input_token_count output_token_count : Z) (prior_page : string)
    : list batch_entry :=
  let task image :=
    (process_page complete image model temp_directory
       input_token_count output_token_count prior_page).1 in
  let settled :=
    concat (map (settle_batch latency task)
                (batches (Z.to_nat concurrency) (numbered images))) in
  reorder_by_page_index settled.

(** What the provider reports for a page processed on its own, and the
    input and output token counts among it (nothing for a failed page). *)
Definition page_input_tokens (reply : option (string * Z * Z)) : Z :=
  match reply with Some (_, input_tokens, _) => input_tokens | None => 0 end.

Definition page_output_tokens (reply : option (string * Z * Z)) : Z :=
  match reply with Some (_, _, output_tokens) => output_tokens | None => 0 end.

Definition page_markdown (reply : option (string * Z * Z)) : option string :=
  match reply with Some (markdown, _, _) => Some markdown | None => None end.

(** The replies of the Model Adapter along the sequential chain: each page
    is asked with the prior context the page before it left. *)
Fixpoint chain_replies (complete : adapter) (model : VisionModel)
    (images : list string) (prior_page : string)
    : list (option (string * Z * Z)) :=
  match images with
  | [] => []
  | image :: images' =>
      let reply := complete model image prior_page in
      reply :: chain_replies complete model images'
                 (default prior_page (page_markdown reply))
  end.

End Spec.

(** The collaborators [E] with the page processor and the batch scheduler
    of the specification in place. *)
Definition spec_externals (E : Externals) (complete : Spec.adapter)
    (latency : nat → nat) : Externals :=
  {| gettempdir := gettempdir E;
     start_time := start_time E;
     end_time := end_time E;
     isalnum := isalnum E;
     lower := lower E;
     listdir := listdir E;
     download_file := download_file E;
     convert_pdf_to_images := convert_pdf_to_images E;
     litellmmodel := litellmmodel E;
     process_page := Spec.process_page complete;
     process_pages_in_batches :=
     Spec.process_pages_in_batches complete latency |}.

(** ** A concrete environment

    Collaborators simple enough to run the orchestrator on: characters are
    classified as ASCII, a download copies the document into the working
    directory unless its name is [missing.pdf], and rasterization writes
    three page images. *)

Module Demo.

Definition ascii_isalnum (c : ascii) : bool :=
  let n := nat_of_ascii c in
  ((48 <=? n) && (n <=? 57) || (65 <=? n) && (n <=? 90)
   || (97 <=? n) && (n <=? 122))%nat.

Definition ascii_lower (c : ascii) : string :=
  let n := nat_of_ascii c in
  String (if ((65 <=? n) && (n <=? 90))%nat then ascii_of_nat (n + 32) else c)
         EmptyString.

(** The entries of [d], in the order of the file map. *)
Definition list_entries (d : string) (fs : FS) : list string :=
  omap (λ p : string,
          if Py.startswith p (d +:+ "/")
          then Some (Py.slice_from p (Py.len d + 1)) else None)
       (map fst (map_to_list (files fs))).

Definition fetch (file_path temp_dir : string) : M (option string) :=
  if String.eqb (OsPath.basename file_path) "missing.pdf" then ret None
  else
    let local_path := OsPath.join temp_dir (OsPath.basename file_path) in
    bind (os_call (Os.write_file local_path "%PDF"))
         (λ _, ret (Some local_path)).

Definition rasterize (local_path temp_dir : string) : M unit :=
  os_call (λ fs,
    Os.write_file (temp_dir +:+ "/page_3.png") "png"
      (Os.write_file (temp_dir +:+ "/page_1.png") "png"
         (Os.write_file (temp_dir +:+ "/page_2.png") "png" fs))).

Definition make_model (model : string) (kwargs : list (string * string))
    : outcome VisionModel :=
  Return {| vm_model := model; vm_kwargs := kwargs;
            system_prompt := "Convert the following PDF page to markdown." |}.

(** A provider that transcribes every page, quoting the prior page. *)
Definition complete : Spec.adapter :=
  λ _ image prior_page,
    Some (OsPath.basename image +:+ "<" +:+ prior_page +:+ ">", 10, 4).

(** A provider that fails on the second page. *)
Definition complete_failing : Spec.adapter :=
  λ model image prior_page,
    if Py.endswith image "page_2.png" then None
    else complete model image prior_page.

(** Later pages settle first. *)
Definition latency (page_index : nat) : nat := (10 - page_index)%nat.

Definition externals (complete : Spec.adapter) : Externals :=
  {| gettempdir := "/tmp";
     start_time := 1000;
     end_time := 1250;
     isalnum := ascii_isalnum;
     lower := ascii_lower;
     listdir := list_entries;
     download_file := fetch;
     convert_pdf_to_images := rasterize;
     litellmmodel := make_model;
     process_page := Spec.process_page complete;
     process_pages_in_batches :=
       Spec.process_pages_in_batches complete latency |}.

Definition args : Args :=
  {| cleanup := true;
     concurrency := 2;
     file_path := Some "/docs/Report (Final)!.pdf";
     maintain_format := false;
     model := "gpt-4o-mini";
     output_dir := Some "/out";
     temp_dir := "/tmp";
     custom_system_prompt := None;
     kwargs := [] |}.

Definition with_file_path (a : Args) (p : option string) : Args :=
  {| cleanup := cleanup a; concurrency := concurrency a; file_path := p;
     maintain_format := maintain_format a; model := model a;
     output_dir := output_dir a; temp_dir := temp_dir a;
     custom_system_prompt := custom_system_prompt a; kwargs := kwargs a |}.

Definition with_maintain_format (a : Args) (b : bool) : Args :=
  {| cleanup := cleanup a; concurrency := concurrency a;
     file_path := file_path a; maintain_format := b; model := model a;
     output_dir := output_dir a; temp_dir := temp_dir a;
     custom_system_prompt := custom_system_prompt a; kwargs := kwargs a |}.

Definition empty_fs : FS := {| dirs := ∅; files := ∅ |}.


End Demo.

(** The file system in which the download starts: the output directory,
    when one is configured, and the working directory have been created
    (lines 68-74). *)
Definition prepared (E : Externals) (a : Args) (fs : FS) : FS :=
  Os.makedirs (temp_directory E a)
    (if Py.truthy (output_dir a)
     then Os.makedirs (default "" (output_dir a)) fs
     else fs).

(** The file system after the step that persists the output (lines
    130-134), and after the step that removes the working directory (lines
    136-138). *)
Definition persisted (a : Args) (file_name : string)
    (aggregated_markdown : list string) (fs : FS) : FS :=
  if Py.truthy (output_dir a)
  then Os.write_file (result_file_path (default "" (output_dir a)) file_name)
         (Py.join blank_line aggregated_markdown) fs
  else fs.

Definition cleaned (a : Args) (temp_directory : string) (fs : FS) : FS :=
  if cleanup a && Os.path_exists temp_directory fs
  then Os.rmtree temp_directory fs
  else fs.

(** ** Further scenarios on the concrete environment *)

Module Scenario.

Definition with_cleanup (a : Args) (b : bool) : Args :=
  {| cleanup := b; concurrency := concurrency a; file_path := file_path a;
     maintain_format := maintain_format a; model := model a;
     output_dir := output_dir a; temp_dir := temp_dir a;
     custom_system_prompt := custom_system_prompt a; kwargs := kwargs a |}.

Definition with_output_dir (a : Args) (d : option string) : Args :=
  {| cleanup := cleanup a; concurrency := concurrency a;
     file_path := file_path a; maintain_format := maintain_format a;
     model := model a; output_dir := d; temp_dir := temp_dir a;
     custom_system_prompt := custom_system_prompt a; kwargs := kwargs a |}.

Definition with_custom_system_prompt (a : Args) (prompt : option string) : Args :=
  {| cleanup := cleanup a; concurrency := concurrency a;
     file_path := file_path a; maintain_format := maintain_format a;
     model := model a; output_dir := output_dir a; temp_dir := temp_dir a;
     custom_system_prompt := prompt; kwargs := kwargs a |}.

(** The environment [E] with another rasterization. *)
Definition with_rasterization (E : Externals)
    (rasterization : string → string → M unit) : Externals :=
  {| gettempdir := gettempdir E;
     start_time := start_time E;
     end_time := end_time E;
     isalnum := isalnum E;
     lower := lower E;
     listdir := listdir E;
     download_file := download_file E;
     convert_pdf_to_images := rasterization;
     litellmmodel := litellmmodel E;
     process_page := process_page E;
     process_pages_in_batches := process_pages_in_batches E |}.

(** A document that cannot be rendered. *)
Definition broken_document (local_path temp_dir : string) : M unit :=
  raise (OtherError "cannot render the document").

(** A document without pages: rasterization writes no image. *)
Definition blank_document (local_path temp_dir : string) : M unit :=
  ret tt.

(** A provider that answers every page with the empty string. *)
Definition silent : Spec.adapter := λ _ _ _, Some ("", 7, 0).



(** The line feed, as a string of one character. *)
Definition line_feed : string := String "010"%char EmptyString.

End Scenario.


(** * Properties *)

(** ** The functions on paths and strings, on examples *)

Example basename_of_a_path :
  OsPath.basename "/tmp/zerox-temp/Report (Final)!.pdf" = "Report (Final)!.pdf".
Proof. reflexivity. Qed.

Example splitext_of_a_name :
  OsPath.splitext "Report (Final)!.pdf" = ("Report (Final)!", ".pdf").
Proof. reflexivity. Qed.

Example splitext_of_a_hidden_file :
  OsPath.splitext "/a.b/.bashrc" = ("/a.b/.bashrc", "").
Proof. reflexivity. Qed.

Example join_of_two_parts :
  OsPath.join "/tmp" "zerox-temp" = "/tmp/zerox-temp"
  ∧ OsPath.join "/tmp/" "zerox-temp" = "/tmp/zerox-temp"
  ∧ OsPath.join "" "zerox-temp" = "zerox-temp"
  ∧ OsPath.join "/out" "/abs.md" = "/abs.md".
Proof. repeat split; reflexivity. Qed.

Example endswith_png :
  Py.endswith "page_1.png" ".png" = true
  ∧ Py.endswith "a.pdf" ".png" = false
  ∧ Py.endswith "png" ".png" = false.
Proof. repeat split; reflexivity. Qed.

Example file_name_of_the_report :
  file_name (Demo.externals Demo.complete) "Report (Final)!" = "report__final__".
Proof. reflexivity. Qed.

Example batches_of_three_pages :
  Spec.batches 2 ["p1"; "p2"; "p3"] = [["p1"; "p2"]; ["p3"]].
Proof. reflexivity. Qed.

Example pages_settle_by_latency :
  Spec.settle_batch Demo.latency (λ image : string, image)
    [(0%nat, "p1"); (1%nat, "p2")]
  = [(1%nat, "p2"); (0%nat, "p1")].
Proof. reflexivity. Qed.

(** ** The monad *)

Lemma bind_Return {A B} (c : M A) (k : A → M B) fs b fs' :
  bind c k fs = (Return b, fs') →
  ∃ a fs1, c fs = (Return a, fs1) ∧ k a fs1 = (Return b, fs').
Proof.
  unfold bind. destruct (c fs) as [[a|e] fs1]; [eauto | discriminate].
Qed.

Lemma bind_Return_intro {A B} (c : M A) (k : A → M B) fs a fs1 :
  c fs = (Return a, fs1) → bind c k fs = k a fs1.
Proof. unfold bind. by intros ->. Qed.

Lemma bind_Raise_intro {A B} (c : M A) (k : A → M B) fs e fs1 :
  c fs = (Raise e, fs1) → bind c k fs = (Raise e, fs1).
Proof. unfold bind. by intros ->. Qed.

(** ** The shape of a successful run *)

Section Run.

Variable E : Externals.

(** The file system when the download starts (after lines 68-74). *)
Lemma resolve_input_Return a fs local_path fs1 :
  resolve_input E a fs = (Return local_path, fs1) →
  Py.truthy (file_path a) = true ∧
  Py.truthy (Some local_path) = true ∧
  ∃ fs0,
    Os.path_exists (temp_directory E a) fs0 = true ∧
    download_file E (default "" (file_path a)) (temp_directory E a) fs0
    = (Return (Some local_path), fs1).
Proof.
  unfold resolve_input. destruct (Py.truthy (file_path a)); [|discriminate].
  cbn [negb]. intros H.
  apply bind_Return in H as ([] & fs0' & _ & H).
  apply bind_Return in H as ([] & fs0 & H0 & H).
  apply bind_Return in H as (lp & fs1' & Hd & H).
  destruct (Py.truthy lp) eqn:Hlp; [|discriminate]. cbn [negb] in H.
  injection H as <- <-. destruct lp as [lp|]; [|discriminate].
  split; [done|]. split; [done|]. exists fs0. split; [|done].
  injection H0 as <-. unfold Os.path_exists, Os.makedirs; cbn.
  apply orb_true_iff; left. apply bool_decide_eq_true. set_solver.
Qed.

Lemma zerox_Return a fs out fs' :
  zerox E a fs = (Return out, fs') →
  ∃ local_path fs1 imgs fs2 vision_model fs3,
    resolve_input E a fs = (Return local_path, fs1) ∧
    rasterize E a local_path fs1 = (Return imgs, fs2) ∧
    make_vision_model E a = Return vision_model ∧
    let processed :=
      process_pages E a vision_model (temp_directory E a) imgs 0 0 "" in
    let name := file_name E (raw_file_name local_path) in
    persist a name processed.1.1 fs2 = (Return tt, fs3) ∧
    remove_temp a (temp_directory E a) fs3 = (Return tt, fs') ∧
    out = {| Types.completion_time := end_time E - start_time E;
             Types.file_name := name;
             Types.input_tokens := processed.1.2;
             Types.output_tokens := processed.2;
             Types.pages := formatted_pages processed.1.1 |}.
Proof.
  unfold zerox. intros H.
  apply bind_Return in H as (local_path & fs1 & Hres & H).
  apply bind_Return in H as (imgs & fs2 & Hras & H).
  apply bind_Return in H as (vm & fs2' & Hvm & H).
  unfold call in Hvm. injection Hvm as Hvm <-.
  destruct (process_pages E a vm (temp_directory E a) imgs 0 0 "")
    as [[agg ic] oc] eqn:Hp.
  apply bind_Return in H as ([] & fs3 & Hper & H).
  apply bind_Return in H as ([] & fs4 & Hrm & H).
  injection H as <- <-.
  exists local_path, fs1, imgs, fs2, vm, fs3. by rewrite Hp.
Qed.

Lemma page_images_of_run a fs out fs' :
  zerox E a fs = (Return out, fs') →
  ∃ imgs fs2, page_images E a fs = (Return imgs, fs2).
Proof.
  intros (lp & fs1 & imgs & fs2 & _ & _ & Hres & Hras & _)%zerox_Return.
  exists imgs, fs2. unfold page_images.
  by rewrite (bind_Return_intro _ _ _ _ _ Hres).
Qed.

End Run.

(** ** Validation of [file_path] *)

(** C3: when [zerox] is called with an empty [file_path] (the empty string,
    or [None]), it raises [FileUnavailable] and the file system is the one
    it was called in: nothing, in particular no temporary directory, has
    been created before the raise. *)
Theorem zerox_empty_file_path (E : Externals) (a : Args) (fs : FS) :
  Py.truthy (file_path a) = false →
  zerox E a fs = (Raise FileUnavailable, fs).
Proof.
  intros Hfp. unfold zerox.
  apply bind_Raise_intro. unfold resolve_input. by rewrite Hfp.
Qed.

Lemma zerox_empty_file_path_witness :
  zerox (Demo.externals Demo.complete)
        (Demo.with_file_path Demo.args (Some "")) Demo.empty_fs
  = (Raise FileUnavailable, Demo.empty_fs).
Proof.
  apply (zerox_empty_file_path (Demo.externals Demo.complete)
           (Demo.with_file_path Demo.args (Some "")) Demo.empty_fs).
  reflexivity.
Defined.

(** ** The page records *)

Lemma enumerate_from_content {A} (i : Z) (xs : list A) :
  map snd (Py.enumerate_from i xs) = xs.
Proof. revert i. induction xs as [|x xs IH]; intros i; cbn; [done|]. by rewrite IH. Qed.


Lemma formatted_pages_content (aggregated_markdown : list string) :
  map Types.content (formatted_pages aggregated_markdown) = aggregated_markdown.
Proof.
  unfold formatted_pages, Py.enumerate.
  transitivity (map snd (Py.enumerate_from 0 aggregated_markdown));
    [|apply enumerate_from_content].
  rewrite map_map. apply map_ext. by intros [i c].
Qed.

Lemma formatted_pages_length (aggregated_markdown : list string) :
  length (formatted_pages aggregated_markdown) = length aggregated_markdown.
Proof.
  transitivity (length (map Types.content (formatted_pages aggregated_markdown))).
  - by rewrite length_map.
  - by rewrite formatted_pages_content.
Qed.


Lemma formatted_pages_content_length (aggregated_markdown : list string) :
  Forall (λ p, Types.content_length p
               = Z.of_nat (String.length (Types.content p)))
         (formatted_pages aggregated_markdown).
Proof.
  unfold formatted_pages. apply Forall_forall. intros p Hp.
  apply list_elem_of_In, in_map_iff in Hp as ([i c] & <- & _). reflexivity.
Qed.

(** C7: in every page record of the output of a run, [content_length] is the
    length of [content]. *)
Theorem content_length_is_length (E : Externals) (a : Args) (fs fs' : FS)
    (out : Types.ZeroxOutput) :
  zerox E a fs = (Return out, fs') →
  Forall (λ p, Types.content_length p
               = Z.of_nat (String.length (Types.content p)))
         (Types.pages out).
Proof.
  intros (lp & fs1 & imgs & fs2 & vm & fs3 & _ & _ & _ & H)%zerox_Return.
  cbv zeta in H. destruct H as (_ & _ & ->).
  apply formatted_pages_content_length.
Qed.

Lemma content_length_is_length_witness :
  ∃ out fs',
    zerox (Demo.externals Demo.complete) Demo.args Demo.empty_fs
    = (Return out, fs') ∧
    length (Types.pages out) = 3%nat ∧
    Forall (λ p, Types.content_length p
                 = Z.of_nat (String.length (Types.content p)))
           (Types.pages out).
Proof.
  eexists _, _. split; [vm_compute; reflexivity|]. split; [reflexivity|].
  eapply (content_length_is_length (Demo.externals Demo.complete)
            Demo.args Demo.empty_fs).
  vm_compute; reflexivity.
Defined.

(** ** Strings *)

Lemma append_nil_r (s : string) : s +:+ "" = s.
Proof.
  induction s as [|c s IH]; [reflexivity|]. exact (f_equal (String c) IH).
Qed.

Lemma append_assoc (s1 s2 s3 : string) : (s1 +:+ s2) +:+ s3 = s1 +:+ s2 +:+ s3.
Proof.
  induction s1 as [|c s1 IH]; [reflexivity|]. exact (f_equal (String c) IH).
Qed.

Lemma join_empty_cons (part : string) (parts : list string) :
  Py.join "" (part :: parts) = part +:+ Py.join "" parts.
Proof.
  unfold Py.join. destruct parts as [|part' parts]; [|done].
  symmetry. apply append_nil_r.
Qed.

Lemma join_empty_app (parts1 parts2 : list string) :
  Py.join "" (parts1 ++ parts2) = Py.join "" parts1 +:+ Py.join "" parts2.
Proof.
  induction parts1 as [|part parts1 IH]; [done|].
  rewrite <-app_comm_cons, !join_empty_cons, IH. by rewrite append_assoc.
Qed.

Lemma list_ascii_of_string_app (s1 s2 : string) :
  String.list_ascii_of_string (s1 +:+ s2)
  = String.list_ascii_of_string s1 ++ String.list_ascii_of_string s2.
Proof.
  induction s1 as [|c s1 IH]; [reflexivity|]. exact (f_equal (λ l : list ascii, c :: l) IH).
Qed.

(** ** The file system *)



Lemma rmtree_keeps_file (d p : string) (fs : FS) :
  Os.is_under d p = false →
  files (Os.rmtree d fs) !! p = files fs !! p.
Proof.
  intros Hp. unfold Os.rmtree; cbn.
  destruct (files fs !! p) as [text|] eqn:Hl.
  - by apply map_lookup_filter_Some.
  - apply map_lookup_filter_None. by left.
Qed.

Lemma write_file_lookup (p text : string) (fs : FS) :
  files (Os.write_file p text fs) !! p = Some text.
Proof. unfold Os.write_file; cbn. apply lookup_insert_eq. Qed.

Lemma write_file_twice (p old text : string) (fs : FS) :
  Os.write_file p text (Os.write_file p old fs) = Os.write_file p text fs.
Proof. unfold Os.write_file; cbn. by rewrite insert_insert_eq. Qed.

Lemma write_file_again_dom (p old text : string) (fs : FS) :
  dom (files (Os.write_file p text (Os.write_file p old fs)))
  = dom (files (Os.write_file p old fs)).
Proof.
  unfold Os.write_file; cbn. rewrite !dom_insert_L.
  apply leibniz_equiv. intros q. rewrite !elem_of_union. tauto.
Qed.

Lemma prepared_exists (E : Externals) (a : Args) (fs : FS) :
  Os.path_exists (temp_directory E a) (prepared E a fs) = true.
Proof.
  unfold Os.path_exists, prepared, Os.makedirs; cbn.
  apply orb_true_iff; left. apply bool_decide_eq_true. set_solver.
Qed.

(** ** Cleanup *)



(** C10: when [file_path] is not empty and the download yields no local
    path ([None] or the empty string), [zerox] raises [FileUnavailable] in
    the file system the download left.  The working temporary directory
    existed when the download started, and whatever the value of [cleanup]
    nothing is removed after the download: the directory is still there
    unless the download itself removed it. *)
Theorem download_failure_keeps_temp_directory (E : Externals) (a : Args)
    (fs fs1 : FS) (local_path : option string) :
  Py.truthy (file_path a) = true →
  download_file E (default "" (file_path a)) (temp_directory E a)
    (prepared E a fs) = (Return local_path, fs1) →
  Py.truthy local_path = false →
  zerox E a fs = (Raise FileUnavailable, fs1) ∧
  Os.path_exists (temp_directory E a) (prepared E a fs) = true ∧
  (dirs (prepared E a fs) ⊆ dirs fs1 →
   Os.path_exists (temp_directory E a) fs1 = true).
Proof.
  intros Hfp Hd Hlp. split; [|split].
  - unfold zerox. apply bind_Raise_intro. unfold resolve_input.
    rewrite Hfp. cbn [negb]. unfold bind at 1.
    replace ((if Py.truthy (output_dir a)
              then os_call (Os.makedirs (default "" (output_dir a)))
              else ret tt) fs)
      with (Return tt,
            if Py.truthy (output_dir a)
            then Os.makedirs (default "" (output_dir a)) fs else fs)
      by (by destruct (Py.truthy (output_dir a))).
    unfold bind, os_call. fold (prepared E a fs). rewrite Hd, Hlp. done.
  - apply prepared_exists.
  - intros Hsub. unfold Os.path_exists.
    apply orb_true_iff; left. apply bool_decide_eq_true.
    apply Hsub. unfold prepared, Os.makedirs; cbn. set_solver.
Qed.

Lemma download_failure_keeps_temp_directory_witness :
  ∃ fs1,
    zerox (Demo.externals Demo.complete)
          (Demo.with_file_path Demo.args (Some "/docs/missing.pdf"))
          Demo.empty_fs
    = (Raise FileUnavailable, fs1) ∧
    Os.path_exists "/tmp/zerox-temp" fs1 = true.
Proof.
  eexists.
  pose proof (download_failure_keeps_temp_directory
                (Demo.externals Demo.complete)
                (Demo.with_file_path Demo.args (Some "/docs/missing.pdf"))
                Demo.empty_fs _ None eq_refl eq_refl eq_refl)
    as (Hrun & _ & Hdir).
  split; [exact Hrun|]. apply Hdir. reflexivity.
Defined.

(** ** The document name *)

Lemma file_name_cons (E : Externals) (c : ascii) (s : string) :
  file_name E (String c s)
  = (if isalnum E c then lower E c else "_") +:+ file_name E s.
Proof. unfold file_name. cbn [String.list_ascii_of_string map]. apply join_empty_cons. Qed.

Lemma file_name_app (E : Externals) (s1 s2 : string) :
  file_name E (s1 +:+ s2) = file_name E s1 +:+ file_name E s2.
Proof.
  unfold file_name. by rewrite list_ascii_of_string_app, map_app, join_empty_app.
Qed.

Lemma persist_configured (a : Args) (name : string)
    (aggregated_markdown : list string) (fs fs' : FS) :
  Py.truthy (output_dir a) = true →
  persist a name aggregated_markdown fs = (Return tt, fs') →
  fs' = Os.write_file
          (OsPath.join (default "" (output_dir a)) (name +:+ ".md"))
          (Py.join blank_line aggregated_markdown) fs.
Proof.
  unfold persist, result_file_path, os_call. intros ->. by intros [= <-].
Qed.

(** C5: the document name in the output of a run, which is also the name
    (before [.md]) of the file the run persists, is the base file name of
    the downloaded document mapped character by character: the empty name
    gives the empty name, an alphanumeric character gives its lowercase
    form, any other character gives the one placeholder ["_"], and the
    name of a concatenation is the concatenation of the names. *)
Theorem file_name_is_sanitized (E : Externals) (a : Args) (fs fs' : FS)
    (out : Types.ZeroxOutput) :
  zerox E a fs = (Return out, fs') →
  ∃ local_path fs1,
    resolve_input E a fs = (Return local_path, fs1) ∧
    Types.file_name out = file_name E (raw_file_name local_path) ∧
    (Py.truthy (output_dir a) = true →
     ∃ text fs2,
       remove_temp a (temp_directory E a)
         (Os.write_file
            (OsPath.join (default "" (output_dir a))
                         (Types.file_name out +:+ ".md")) text fs2)
       = (Return tt, fs')) ∧
    file_name E "" = "" ∧
    (∀ c, file_name E (String c "")
          = if isalnum E c then lower E c else "_") ∧
    (∀ s1 s2, file_name E (s1 +:+ s2) = file_name E s1 +:+ file_name E s2).
Proof.
  intros (lp & fs1 & imgs & fs2 & vm & fs3 & Hres & _ & _ & H)%zerox_Return.
  cbv zeta in H. destruct H as (Hper & Hrm & ->).
  exists lp, fs1. split; [done|]. split; [done|]. split; [|split; [|split]].
  - intros Hod. apply (persist_configured _ _ _ _ _ Hod) in Hper as ->.
    by eexists _, _.
  - reflexivity.
  - intros c. rewrite file_name_cons. apply append_nil_r.
  - apply file_name_app.
Qed.

Lemma file_name_is_sanitized_witness :
  ∃ out fs',
    zerox (Demo.externals Demo.complete) Demo.args Demo.empty_fs
    = (Return out, fs') ∧
    Types.file_name out = "report__final__" ∧
    ∃ local_path fs1,
      resolve_input (Demo.externals Demo.complete) Demo.args Demo.empty_fs
      = (Return local_path, fs1) ∧
      raw_file_name local_path = "Report (Final)!" ∧
      Types.file_name out
      = file_name (Demo.externals Demo.complete) (raw_file_name local_path).
Proof.
  eexists _, _. split; [vm_compute; reflexivity|]. split; [reflexivity|].
  destruct (file_name_is_sanitized (Demo.externals Demo.complete) Demo.args
              Demo.empty_fs _ _ eq_refl)
    as (lp & fs1 & Hres & Hname & _).
  exists lp, fs1. split; [exact Hres|]. split; [|exact Hname].
  vm_compute in Hres. by injection Hres as <- _.
Defined.

(** ** The sequential branch *)

Section Sequential.

Variable E : Externals.
Variable vision_model : VisionModel.
Variable temp_directory : string.

Lemma process_page_calls_images images input_token_count output_token_count prior_page :
  map call_image
      (process_page_calls E vision_model temp_directory images
         input_token_count output_token_count prior_page)
  = images.
Proof.
  revert input_token_count output_token_count prior_page.
  induction images as [|image images IH]; intros ic oc prior; cbn; [done|].
  by rewrite IH.
Qed.

Lemma process_page_calls_length images input_token_count output_token_count prior_page :
  length (process_page_calls E vision_model temp_directory images
            input_token_count output_token_count prior_page)
  = length images.
Proof.
  rewrite <-(process_page_calls_images images input_token_count
               output_token_count prior_page) at 2.
  by rewrite length_map.
Qed.

Lemma process_page_calls_return images input_token_count output_token_count prior_page c :
  c ∈ process_page_calls E vision_model temp_directory images
        input_token_count output_token_count prior_page →
  call_return c
  = process_page E (call_image c) vision_model temp_directory
      (call_input_token_count c) (call_output_token_count c)
      (call_prior_page c).
Proof.
  revert input_token_count output_token_count prior_page.
  induction images as [|image images IH]; intros ic oc prior; cbn.
  - by intros ?%elem_of_nil.
  - intros [->|Hc]%elem_of_cons; [done|]. by eapply IH.
Qed.

Lemma process_page_calls_first images input_token_count output_token_count prior_page c :
  process_page_calls E vision_model temp_directory images
    input_token_count output_token_count prior_page !! 0%nat = Some c →
  call_input_token_count c = input_token_count ∧
  call_output_token_count c = output_token_count ∧
  call_prior_page c = prior_page.
Proof. destruct images; cbn; [done|]. by intros [= <-]. Qed.

Lemma process_page_calls_next images input_token_count output_token_count prior_page n c c' :
  process_page_calls E vision_model temp_directory images
    input_token_count output_token_count prior_page !! n = Some c →
  process_page_calls E vision_model temp_directory images
    input_token_count output_token_count prior_page !! S n = Some c' →
  call_input_token_count c' = (call_return c).1.1.2 ∧
  call_output_token_count c' = (call_return c).1.2 ∧
  call_prior_page c' = (call_return c).2.
Proof.
  revert input_token_count output_token_count prior_page n.
  induction images as [|image images IH]; intros ic oc prior n; [done|].
  destruct n as [|n]; cbn.
  - intros [= <-] Hnext. cbn. by apply process_page_calls_first in Hnext.
  - apply IH.
Qed.

Lemma omap_call_text_cons (c : Call) (calls : list Call) :
  omap call_text (c :: calls)
  = match call_text c with
    | Some text => text :: omap call_text calls
    | None => omap call_text calls
    end.
Proof. reflexivity. Qed.

(** The loop appends the truthy results of its calls, in the order of the
    calls. *)
Lemma maintain_format_loop_calls images aggregated_markdown
    input_token_count output_token_count prior_page :
  (maintain_format_loop E vision_model temp_directory images
     aggregated_markdown input_token_count output_token_count prior_page).1.1.1
  = aggregated_markdown
    ++ omap call_text
         (process_page_calls E vision_model temp_directory images
            input_token_count output_token_count prior_page).
Proof.
  revert aggregated_markdown input_token_count output_token_count prior_page.
  induction images as [|image images IH]; intros acc ic oc prior.
  - cbn. by rewrite app_nil_r.
  - cbn [maintain_format_loop process_page_calls].
    destruct (process_page E image vision_model temp_directory ic oc prior)
      as [[[result ic'] oc'] prior'].
    cbn [fst snd]. rewrite IH, omap_call_text_cons.
    unfold call_text. cbn [call_return fst].
    destruct (Py.truthy result) eqn:Hresult; [|done].
    destruct result as [text|]; [|done]. cbn [default].
    by rewrite <-app_assoc.
Qed.

End Sequential.

Lemma length_omap_le {A B} (f : A → option B) (l : list A) :
  (length (omap f l) ≤ length l)%nat.
Proof. induction l as [|x l IH]; cbn; [done|]. destruct (f x); cbn; lia. Qed.


Lemma page_images_Return (E : Externals) (a : Args) (fs fs1 fs2 : FS)
    (local_path : string) (imgs : list string) :
  resolve_input E a fs = (Return local_path, fs1) →
  rasterize E a local_path fs1 = (Return imgs, fs2) →
  page_images E a fs = (Return imgs, fs2).
Proof.
  intros Hres Hras. unfold page_images.
  by rewrite (bind_Return_intro _ _ _ _ _ Hres).
Qed.

(** C6: in a run with [maintain_format=true] the pages are processed by one
    call of [process_page] per page image, made one after the other in the
    order of the images; the first call is given the empty prior page, and
    every later call is given the prior page the call before it returned.
    The pages of the output are the truthy results of these calls. *)
Theorem maintain_format_is_a_chain (E : Externals) (a : Args) (fs fs' : FS)
    (out : Types.ZeroxOutput) :
  maintain_format a = true →
  zerox E a fs = (Return out, fs') →
  ∃ imgs fs2 vision_model,
    page_images E a fs = (Return imgs, fs2) ∧
    make_vision_model E a = Return vision_model ∧
    let calls :=
      process_page_calls E vision_model (temp_directory E a) imgs 0 0 "" in
    map call_image calls = imgs ∧
    (∀ c, c ∈ calls →
          call_return c
          = process_page E (call_image c) vision_model (temp_directory E a)
              (call_input_token_count c) (call_output_token_count c)
              (call_prior_page c)) ∧
    (∀ c, calls !! 0%nat = Some c → call_prior_page c = "") ∧
    (∀ n c c', calls !! n = Some c → calls !! S n = Some c' →
               call_prior_page c' = (call_return c).2) ∧
    Types.pages out = formatted_pages (omap call_text calls).
Proof.
  intros Hmf (lp & fs1 & imgs & fs2 & vm & fs3 & Hres & Hras & Hvm & H)%zerox_Return.
  cbv zeta in H. destruct H as (_ & _ & ->).
  exists imgs, fs2, vm. split; [by eapply page_images_Return|]. split; [done|].
  cbv zeta. split; [apply process_page_calls_images|].
  split; [intros c; apply process_page_calls_return|].
  split; [intros c Hc; by apply process_page_calls_first in Hc as (_ & _ & ?)|].
  split.
  { intros n c c' Hc Hc'.
    by destruct (process_page_calls_next _ _ _ _ _ _ _ _ _ _ Hc Hc') as (_ & _ & ?). }
  cbn [Types.pages]. f_equal. unfold process_pages. rewrite Hmf.
  pose proof (maintain_format_loop_calls E vm (temp_directory E a) imgs [] 0 0 "")
    as Hloop.
  destruct (maintain_format_loop E vm (temp_directory E a) imgs [] 0 0 "")
    as [[[agg ic] oc] prior]. exact Hloop.
Qed.

Lemma maintain_format_is_a_chain_witness :
  ∃ out fs',
    zerox (Demo.externals Demo.complete)
          (Demo.with_maintain_format Demo.args true) Demo.empty_fs
    = (Return out, fs') ∧
    map Types.content (Types.pages out)
    = ["page_3.png<>"; "page_1.png<page_3.png<>>";
       "page_2.png<page_1.png<page_3.png<>>>"] ∧
    ∃ imgs fs2 vision_model,
      page_images (Demo.externals Demo.complete)
        (Demo.with_maintain_format Demo.args true) Demo.empty_fs
      = (Return imgs, fs2) ∧
      Types.pages out
      = formatted_pages
          (omap call_text
             (process_page_calls (Demo.externals Demo.complete) vision_model
                "/tmp/zerox-temp" imgs 0 0 "")).
Proof.
  eexists _, _. split; [vm_compute; reflexivity|]. split; [reflexivity|].
  destruct (maintain_format_is_a_chain (Demo.externals Demo.complete)
              (Demo.with_maintain_format Demo.args true) Demo.empty_fs
              _ _ eq_refl eq_refl)
    as (imgs & fs2 & vm & Himgs & _ & _ & _ & _ & _ & Hpages).
  exists imgs, fs2, vm. split; [exact Himgs | exact Hpages].
Defined.

(** ** The batch scheduler of the specification *)

Section Batches.

Context {A B : Type}.

Lemma batches_upto_concat (fuel size : nat) (l : list A) :
  (1 ≤ size)%nat → (length l ≤ fuel)%nat →
  concat (Spec.batches_upto fuel size l) = l.
Proof.
  intros Hsize. revert l.
  induction fuel as [|fuel IH]; intros l Hfuel.
  - destruct l; [done | cbn in Hfuel; lia].
  - destruct l as [|x l]; [done|].
    cbn [Spec.batches_upto concat]. rewrite IH.
    + apply take_drop.
    + rewrite length_drop. cbn [length] in *. lia.
Qed.

Lemma batches_concat (size : nat) (l : list A) :
  (1 ≤ size)%nat → concat (Spec.batches size l) = l.
Proof. intros Hsize. by apply batches_upto_concat. Qed.

#[local] Instance before_transitive : Transitive (@Spec.before B).
Proof. intros t u v. unfold Spec.before. lia. Qed.

#[local] Instance before_total : Total (@Spec.before B).
Proof. intros t u. unfold Spec.before. lia. Qed.

Lemma settle_batch_Permutation (latency : nat → nat) (task : A → B)
    (batch : list (nat * A)) :
  Spec.settle_batch latency task batch ≡ₚ map (λ t, (t.1, task t.2)) batch.
Proof.
  unfold Spec.settle_batch. apply Permutation_map, merge_sort_Permutation.
Qed.

Lemma settled_Permutation (latency : nat → nat) (task : A → B)
    (batches : list (list (nat * A))) :
  concat (map (Spec.settle_batch latency task) batches)
  ≡ₚ map (λ t, (t.1, task t.2)) (concat batches).
Proof.
  induction batches as [|batch batches IH]; [done|].
  cbn [map concat]. rewrite map_app.
  apply Permutation_app; [apply settle_batch_Permutation | exact IH].
Qed.

Lemma same_index_same_page (l : list (nat * B)) (t u : nat * B) :
  NoDup (map fst l) → t ∈ l → u ∈ l → t.1 = u.1 → t = u.
Proof.
  induction l as [|v l IH]; cbn [map]; intros Hnd Ht Hu Heq.
  - by apply elem_of_nil in Ht.
  - apply NoDup_cons in Hnd as [Hv Hnd].
    apply elem_of_cons in Ht as [->|Ht]; apply elem_of_cons in Hu as [->|Hu].
    + done.
    + destruct Hv. rewrite Heq. apply list_elem_of_In, in_map.
      by apply list_elem_of_In.
    + destruct Hv. rewrite <-Heq. apply list_elem_of_In, in_map.
      by apply list_elem_of_In.
    + by apply IH.
Qed.

Lemma sorted_by_page_index (l : list (nat * B)) :
  StronglySorted le (map fst l) → StronglySorted Spec.before l.
Proof.
  induction l as [|t l IH]; cbn [map]; [constructor|].
  intros [Hl Ht]%StronglySorted_inv. constructor; [by apply IH|].
  apply Forall_forall. intros u Hu. unfold Spec.before.
  rewrite Forall_forall in Ht. apply Ht.
  apply list_elem_of_In, in_map. by apply list_elem_of_In.
Qed.

Lemma reorder_by_page_index_sorted (target settled : list (nat * B)) :
  settled ≡ₚ target →
  StronglySorted le (map fst target) →
  NoDup (map fst target) →
  Spec.reorder_by_page_index settled = map snd target.
Proof.
  intros Hperm Hsorted Hnd. unfold Spec.reorder_by_page_index. f_equal.
  assert (merge_sort Spec.before settled ≡ₚ target) as Hperm'.
  { by rewrite merge_sort_Permutation. }
  apply (StronglySorted_unique_strong Spec.before); [| | |done].
  - intros t u Ht Hu Htu Hut. apply (same_index_same_page target); [done| |done|].
    + by rewrite <-Hperm'.
    + unfold Spec.before in *. lia.
  - apply (StronglySorted_merge_sort _).
  - by apply sorted_by_page_index.
Qed.

Lemma numbered_index (l : list A) (task : A → B) :
  map fst (map (λ t : nat * A, (t.1, task t.2)) (Spec.numbered l))
  = seq 0 (length l).
Proof.
  rewrite map_map. cbn [fst]. unfold Spec.numbered.
  apply (fst_zip (seq 0 (length l)) l). by rewrite length_seq.
Qed.

Lemma numbered_page (l : list A) (task : A → B) :
  map snd (map (λ t : nat * A, (t.1, task t.2)) (Spec.numbered l))
  = map task l.
Proof.
  rewrite map_map. cbn [snd]. unfold Spec.numbered.
  rewrite <-(map_map snd task). f_equal.
  apply (snd_zip (seq 0 (length l)) l). by rewrite length_seq.
Qed.

Lemma seq_sorted (i n : nat) : StronglySorted le (seq i n).
Proof.
  revert i. induction n as [|n IH]; intros i; cbn [seq]; constructor; [done|].
  apply Forall_forall. intros k Hk%list_elem_of_In%in_seq. lia.
Qed.

End Batches.

(** Whatever the completion latencies, the scheduler returns the result of
    every page in the order of the images. *)
Lemma process_pages_in_batches_in_order (complete : Spec.adapter)
    (latency : nat → nat) (images : list string) (concurrency : Z)
    (model : VisionModel) (temp_directory : string)
    (input_token_count output_token_count : Z) (prior_page : string) :
  1 ≤ concurrency →
  Spec.process_pages_in_batches complete latency images concurrency model
    temp_directory input_token_count output_token_count prior_page
  = map (λ image,
           (Spec.process_page complete image model temp_directory
              input_token_count output_token_count prior_page).1)
        images.
Proof.
  intros Hc. unfold Spec.process_pages_in_batches.
  set (task := λ image : string,
         (Spec.process_page complete image model temp_directory
            input_token_count output_token_count prior_page).1).
  rewrite <-(numbered_page images task).
  apply reorder_by_page_index_sorted.
  - rewrite settled_Permutation, batches_concat by lia. done.
  - rewrite numbered_index. apply seq_sorted.
  - rewrite numbered_index. apply NoDup_seq.
Qed.


Lemma omap_map {A B C} (f : B → option C) (g : A → B) (l : list A) :
  omap f (map g l) = omap (λ x, f (g x)) l.
Proof. induction l as [|x l IH]; cbn; [done|]. by rewrite IH. Qed.

Lemma omap_pointwise {A B} (f g : A → option B) (l : list A) :
  (∀ x, f x = g x) → omap f l = omap g l.
Proof.
  intros Hfg. induction l as [|x l IH]; cbn; [done|]. by rewrite Hfg, IH.
Qed.

Lemma sum_from (xs : list Z) (start : Z) :
  fold_left Z.add xs start = start + Py.sum xs.
Proof.
  unfold Py.sum. revert start.
  induction xs as [|x xs IH]; intros start; cbn [fold_left]; [lia|].
  rewrite (IH (start + x)), (IH (0 + x)). lia.
Qed.

Lemma sum_cons (x : Z) (xs : list Z) : Py.sum (x :: xs) = x + Py.sum xs.
Proof. unfold Py.sum at 1. cbn [fold_left]. by rewrite sum_from. Qed.

(** ** The batched branch, with the scheduler of the specification *)

Section Batched.

Variable E : Externals.
Variable complete : Spec.adapter.

Lemma process_pages_batched (latency : nat → nat) (a : Args)
    (vision_model : VisionModel) (temp_directory : string)
    (imgs : list string) :
  maintain_format a = false →
  1 ≤ concurrency a →
  process_pages (spec_externals E complete latency) a vision_model
    temp_directory imgs 0 0 ""
  = (omap (λ image, Spec.page_markdown (complete vision_model image "")) imgs,
     Py.sum (map (λ image,
                    Spec.page_input_tokens (complete vision_model image ""))
                 imgs),
     Py.sum (map (λ image,
                    Spec.page_output_tokens (complete vision_model image ""))
                 imgs)).
Proof.
  intros Hmf Hc. unfold process_pages. rewrite Hmf.
  cbn [process_pages_in_batches spec_externals].
  rewrite process_pages_in_batches_in_order by done.
  rewrite omap_map, !map_map. cbn [fst snd].
  assert (∀ image,
            Spec.process_page complete image vision_model temp_directory 0 0 ""
            = (Spec.page_markdown (complete vision_model image ""),
               Spec.page_input_tokens (complete vision_model image ""),
               Spec.page_output_tokens (complete vision_model image ""),
               default "" (Spec.page_markdown (complete vision_model image ""))))
    as Hpage.
  { intros image. unfold Spec.process_page.
    by destruct (complete vision_model image "") as [[[markdown i] o]|]. }
  rewrite !Z.add_0_l. f_equal; [f_equal|].
  - apply omap_pointwise. intros image. by rewrite Hpage.
  - f_equal. apply map_ext. intros image. by rewrite Hpage.
  - f_equal. apply map_ext. intros image. by rewrite Hpage.
Qed.


End Batched.




(** ** Token totals, with the page processor of the specification *)

Section Tokens.

Variable E : Externals.
Variable complete : Spec.adapter.
Variable latency : nat → nat.

Lemma chain_replies_length (vision_model : VisionModel) (images : list string)
    (prior_page : string) :
  length (Spec.chain_replies complete vision_model images prior_page)
  = length images.
Proof.
  revert prior_page. induction images as [|image images IH]; intros prior; cbn;
    [done|]. by rewrite IH.
Qed.

Lemma maintain_format_loop_tokens (vision_model : VisionModel)
    (temp_directory : string) (images aggregated_markdown : list string)
    (input_token_count output_token_count : Z) (prior_page : string) :
  let replies := Spec.chain_replies complete vision_model images prior_page in
  let looped :=
    maintain_format_loop (spec_externals E complete latency) vision_model
      temp_directory images aggregated_markdown input_token_count
      output_token_count prior_page in
  looped.1.1.2
  = input_token_count + Py.sum (map Spec.page_input_tokens replies) ∧
  looped.1.2
  = output_token_count + Py.sum (map Spec.page_output_tokens replies).
Proof.
  cbv zeta.
  revert aggregated_markdown input_token_count output_token_count prior_page.
  induction images as [|image images IH]; intros acc ic oc prior.
  - cbn. unfold Py.sum; cbn. lia.
  - cbn [maintain_format_loop Spec.chain_replies process_page spec_externals].
    unfold Spec.process_page.
    destruct (complete vision_model image prior) as [[[markdown i] o]|];
      cbn [Spec.page_markdown default map Spec.page_input_tokens
           Spec.page_output_tokens];
      unfold id; rewrite !sum_cons;
      match goal with
      | |- context [maintain_format_loop _ _ _ _ ?acc' ?ic' ?oc' ?prior'] =>
          destruct (IH acc' ic' oc' prior') as [Hin Hout]
      end; rewrite Hin, Hout; lia.
Qed.

End Tokens.

(** C4: under the page processor and the batch scheduler of the
    specification, the token totals of the output are the sums, over the
    page images, of the input and of the output token counts the provider
    reports for the page (a page whose call fails counts for nothing); with
    no page image both totals are 0.  In the sequential branch the reports
    are those along the chain of prior pages, in the batched branch those
    of every page asked with the empty prior page. *)
Theorem token_totals_are_sums (E : Externals) (complete : Spec.adapter)
    (latency : nat → nat) (a : Args) (fs fs' : FS) (out : Types.ZeroxOutput) :
  (maintain_format a = false → 1 ≤ concurrency a) →
  zerox (spec_externals E complete latency) a fs = (Return out, fs') →
  ∃ imgs fs2 vision_model,
    page_images E a fs = (Return imgs, fs2) ∧
    make_vision_model E a = Return vision_model ∧
    let replies :=
      if maintain_format a
      then Spec.chain_replies complete vision_model imgs ""
      else map (λ image, complete vision_model image "") imgs in
    length replies = length imgs ∧
    Types.input_tokens out = Py.sum (map Spec.page_input_tokens replies) ∧
    Types.output_tokens out = Py.sum (map Spec.page_output_tokens replies) ∧
    (imgs = [] → Types.input_tokens out = 0 ∧ Types.output_tokens out = 0).
Proof.
  intros Hc Hrun.
  pose proof Hrun
    as (lp & fs1 & imgs & fs2 & vm & fs3 & Hres & Hras & Hvm & H)%zerox_Return.
  cbv zeta in H. destruct H as (_ & _ & ->).
  exists imgs, fs2, vm.
  split; [exact (page_images_Return E a fs fs1 fs2 lp imgs Hres Hras)|].
  split; [exact Hvm|]. cbv zeta. cbn [Types.input_tokens Types.output_tokens].
  change (temp_directory (spec_externals E complete latency) a)
    with (temp_directory E a).
  destruct (maintain_format a) eqn:Hmf.
  - split; [apply chain_replies_length|].
    pose proof (maintain_format_loop_tokens E complete latency vm
                  (temp_directory E a) imgs [] 0 0 "") as Hloop.
    cbv zeta in Hloop. unfold process_pages. rewrite Hmf.
    destruct (maintain_format_loop _ vm (temp_directory E a) imgs [] 0 0 "")
      as [[[agg ic] oc] prior]. cbn [fst snd] in Hloop |- *.
    destruct Hloop as [-> ->]. rewrite !Z.add_0_l.
    split; [done|]. split; [done|]. by intros ->.
  - rewrite process_pages_batched by auto. cbn [fst snd].
    rewrite !map_map. split; [by rewrite length_map|].
    split; [done|]. split; [done|]. by intros ->.
Qed.

Lemma token_totals_are_sums_witness :
  ∃ out fs',
    zerox (spec_externals (Demo.externals Demo.complete_failing)
             Demo.complete_failing Demo.latency)
          (Demo.with_maintain_format Demo.args true) Demo.empty_fs
    = (Return out, fs') ∧
    Types.input_tokens out = 20 ∧
    Types.output_tokens out = 8 ∧
    ∃ imgs fs2 vision_model,
      page_images (Demo.externals Demo.complete_failing)
        (Demo.with_maintain_format Demo.args true) Demo.empty_fs
      = (Return imgs, fs2) ∧
      Types.input_tokens out
      = Py.sum (map Spec.page_input_tokens
                  (Spec.chain_replies Demo.complete_failing vision_model
                     imgs "")).
Proof.
  eexists _, _. split; [vm_compute; reflexivity|].
  split; [reflexivity|]. split; [reflexivity|].
  destruct (token_totals_are_sums (Demo.externals Demo.complete_failing)
              Demo.complete_failing Demo.latency
              (Demo.with_maintain_format Demo.args true) Demo.empty_fs _ _
              ltac:(discriminate) eq_refl)
    as (imgs & fs2 & vm & Himgs & _ & _ & Hin & _).
  exists imgs, fs2, vm. split; [exact Himgs | exact Hin].
Defined.

(** * Further properties of the orchestrator *)

(** [observe H f as H'] evaluates the observation [f] on both sides of the
    run [H]. *)
Tactic Notation "observe" constr(H) constr(f) "as" ident(H') :=
  pose proof (f_equal f H) as H'; vm_compute in H'.

(** ** The steps of a run, one by one *)

Section Steps.

Variable E : Externals.

Lemma resolve_input_unfold (a : Args) (fs : FS) :
  resolve_input E a fs
  = if Py.truthy (file_path a) then
      match download_file E (default "" (file_path a)) (temp_directory E a)
              (prepared E a fs) with
      | (Return local_path, fs1) =>
          if Py.truthy local_path
          then (Return (default "" local_path), fs1)
          else (Raise FileUnavailable, fs1)
      | (Raise e, fs1) => (Raise e, fs1)
      end
    else (Raise FileUnavailable, fs).
Proof.
  unfold resolve_input, prepared.
  destruct (Py.truthy (file_path a)); [|done]. cbn [negb].
  unfold bind, os_call, ret, raise.
  destruct (Py.truthy (output_dir a));
    destruct (download_file E _ _ _) as [[local_path|e] fs1]; try done;
    by destruct (Py.truthy local_path).
Qed.

Lemma rasterize_unfold (a : Args) (local_path : string) (fs1 : FS) :
  rasterize E a local_path fs1
  = match convert_pdf_to_images E local_path (temp_directory E a) fs1 with
    | (Return _, fs2) => (Return (images E (temp_directory E a) fs2), fs2)
    | (Raise e, fs2) => (Raise e, fs2)
    end.
Proof.
  unfold rasterize, bind, os_read.
  by destruct (convert_pdf_to_images E _ _ _) as [[[]|e] fs2].
Qed.

Lemma make_vision_model_Return (a : Args) (vision_model : VisionModel) :
  make_vision_model E a = Return vision_model →
  ∃ built,
    litellmmodel E (model a) (kwargs a) = Return built ∧
    vision_model
    = if Py.truthy (custom_system_prompt a)
      then set_system_prompt built (default "" (custom_system_prompt a))
      else built.
Proof.
  unfold make_vision_model.
  destruct (litellmmodel E (model a) (kwargs a)) as [built|e]; [|done].
  intros [= <-]. by exists built.
Qed.

Lemma persist_persisted (a : Args) (name : string)
    (aggregated_markdown : list string) (fs : FS) :
  persist a name aggregated_markdown fs
  = (Return tt, persisted a name aggregated_markdown fs).
Proof. unfold persist, persisted, os_call, ret. by destruct (Py.truthy _). Qed.

Lemma remove_temp_cleaned (a : Args) (temp : string) (fs : FS) :
  remove_temp a temp fs = (Return tt, cleaned a temp fs).
Proof.
  unfold remove_temp, cleaned, bind, os_read, os_call, ret.
  by destruct (cleanup a && Os.path_exists temp fs).
Qed.

(** The run after the model object has been built: nothing can raise. *)
Lemma zerox_unfold (a : Args) (fs : FS) :
  zerox E a fs
  = match resolve_input E a fs with
    | (Return local_path, fs1) =>
        match rasterize E a local_path fs1 with
        | (Return imgs, fs2) =>
            match make_vision_model E a with
            | Return vision_model =>
                let processed :=
                  process_pages E a vision_model (temp_directory E a) imgs
                    0 0 "" in
                let name := file_name E (raw_file_name local_path) in
                (Return
                   {| Types.completion_time := end_time E - start_time E;
                      Types.file_name := name;
                      Types.input_tokens := processed.1.2;
                      Types.output_tokens := processed.2;
                      Types.pages := formatted_pages processed.1.1 |},
                 cleaned a (temp_directory E a)
                   (persisted a name processed.1.1 fs2))
            | Raise e => (Raise e, fs2)
            end
        | (Raise e, fs2) => (Raise e, fs2)
        end
    | (Raise e, fs1) => (Raise e, fs1)
    end.
Proof.
  unfold zerox, bind at 1.
  destruct (resolve_input E a fs) as [[local_path|e] fs1]; [|done].
  unfold bind at 1.
  destruct (rasterize E a local_path fs1) as [[imgs|e] fs2]; [|done].
  unfold bind at 1, call.
  destruct (make_vision_model E a) as [vm|e]; [|done].
  destruct (process_pages E a vm (temp_directory E a) imgs 0 0 "")
    as [[agg ic] oc].
  unfold bind. by rewrite persist_persisted, remove_temp_cleaned.
Qed.

Lemma page_images_unfold (a : Args) (fs : FS) :
  page_images E a fs
  = match resolve_input E a fs with
    | (Return local_path, fs1) => rasterize E a local_path fs1
    | (Raise e, fs1) => (Raise e, fs1)
    end.
Proof. reflexivity. Qed.

End Steps.

(** ** What a successful run does to the file system *)

Lemma prefix_append (s t : string) : String.prefix s (s +:+ t) = true.
Proof.
  induction s as [|c s IH]; [by destruct t|].
  change ((if ascii_dec c c then String.prefix s (s +:+ t) else false) = true).
  destruct (ascii_dec c c) as [_|Hc]; [exact IH | by destruct Hc].
Qed.

Lemma is_under_entry (d f : string) : Os.is_under d (d +:+ "/" +:+ f) = true.
Proof.
  unfold Os.is_under, Py.startswith. apply orb_true_iff; right.
  rewrite <-append_assoc. apply prefix_append.
Qed.

Lemma rmtree_under (d p : string) (fs : FS) :
  Os.is_under d p = true →
  files (Os.rmtree d fs) !! p = None ∧ p ∉ dirs (Os.rmtree d fs).
Proof.
  intros Hp. unfold Os.rmtree; cbn. split.
  - apply map_lookup_filter_None. right. intros text _. cbn. by rewrite Hp.
  - intros [H _]%elem_of_filter. by rewrite Hp in H.
Qed.

Lemma rmtree_dirs_outside (d p : string) (fs : FS) :
  Os.is_under d p = false → p ∈ dirs (Os.rmtree d fs) ↔ p ∈ dirs fs.
Proof.
  intros Hp. unfold Os.rmtree; cbn. rewrite elem_of_filter. tauto.
Qed.

Lemma persisted_dirs (a : Args) (name : string) (agg : list string) (fs : FS) :
  dirs (persisted a name agg fs) = dirs fs.
Proof. unfold persisted. by destruct (Py.truthy (output_dir a)). Qed.

Lemma persisted_other_file (a : Args) (name : string) (agg : list string)
    (fs : FS) (p : string) :
  (Py.truthy (output_dir a) = true →
   p ≠ result_file_path (default "" (output_dir a)) name) →
  files (persisted a name agg fs) !! p = files fs !! p.
Proof.
  unfold persisted. destruct (Py.truthy (output_dir a)); [|done].
  intros Hp. unfold Os.write_file; cbn. apply lookup_insert_ne.
  intros Heq. by apply Hp.
Qed.

Lemma persisted_path_exists (a : Args) (name : string) (agg : list string)
    (fs : FS) (p : string) :
  Os.path_exists p fs = true → Os.path_exists p (persisted a name agg fs) = true.
Proof.
  unfold Os.path_exists. rewrite persisted_dirs.
  intros [Hd|Hf]%orb_true_iff; apply orb_true_iff; [by left|right].
  apply bool_decide_eq_true in Hf. apply bool_decide_eq_true.
  unfold persisted. destruct (Py.truthy (output_dir a)); [|done].
  unfold Os.write_file; cbn. rewrite lookup_insert.
  by destruct (decide _).
Qed.

(** The file system a successful run returns in. *)
Lemma zerox_Return_state (E : Externals) (a : Args) (fs fs' : FS)
    (out : Types.ZeroxOutput) :
  zerox E a fs = (Return out, fs') →
  ∃ imgs fs2 vision_model,
    page_images E a fs = (Return imgs, fs2) ∧
    make_vision_model E a = Return vision_model ∧
    let processed :=
      process_pages E a vision_model (temp_directory E a) imgs 0 0 "" in
    Types.pages out = formatted_pages processed.1.1 ∧
    Types.input_tokens out = processed.1.2 ∧
    Types.output_tokens out = processed.2 ∧
    fs' = cleaned a (temp_directory E a)
            (persisted a (Types.file_name out) processed.1.1 fs2).
Proof.
  rewrite zerox_unfold, page_images_unfold.
  destruct (resolve_input E a fs) as [[local_path|e] fs1]; [|done].
  destruct (rasterize E a local_path fs1) as [[imgs|e] fs2]; [|done].
  destruct (make_vision_model E a) as [vm|e]; [|done].
  cbv zeta. intros [= <- <-]. by exists imgs, fs2, vm.
Qed.

(** X3: after the page images have been enumerated, a successful run
    changes nothing outside the working directory except the output file:
    every other path holds the same file, and is a directory or not, as in
    the file system the rasterization left. *)
Theorem run_changes_only_output_and_working_directory (E : Externals)
    (a : Args) (fs fs' : FS) (out : Types.ZeroxOutput) :
  zerox E a fs = (Return out, fs') →
  ∃ imgs fs2,
    page_images E a fs = (Return imgs, fs2) ∧
    ∀ p,
      Os.is_under (temp_directory E a) p = false →
      (Py.truthy (output_dir a) = true →
       p ≠ result_file_path (default "" (output_dir a)) (Types.file_name out)) →
      files fs' !! p = files fs2 !! p ∧ (p ∈ dirs fs' ↔ p ∈ dirs fs2).
Proof.
  intros (imgs & fs2 & vm & Himgs & _ & H)%zerox_Return_state.
  cbv zeta in H. destruct H as (_ & _ & _ & ->).
  exists imgs, fs2. split; [done|]. intros p Hout Hp.
  unfold cleaned. destruct (cleanup a && Os.path_exists _ _).
  - rewrite rmtree_keeps_file, rmtree_dirs_outside by done.
    by rewrite persisted_other_file, persisted_dirs.
  - by rewrite persisted_other_file, persisted_dirs.
Qed.

Lemma run_changes_only_output_and_working_directory_witness :
  ∃ out fs',
    zerox (Demo.externals Demo.complete) Demo.args
      (Os.write_file "/home/notes.txt" "keep" Demo.empty_fs)
    = (Return out, fs') ∧
    files fs' !! "/home/notes.txt" = Some "keep".
Proof.
  destruct (zerox (Demo.externals Demo.complete) Demo.args
              (Os.write_file "/home/notes.txt" "keep" Demo.empty_fs))
    as [[out|e] fs'] eqn:Hrun; [|vm_compute in Hrun; discriminate Hrun].
  exists out, fs'. split; [reflexivity|].
  observe Hrun (λ r : outcome Types.ZeroxOutput * FS,
                  match r.1 with
                  | Return o => Types.file_name o
                  | Raise _ => ""
                  end) as Hname.
  destruct (run_changes_only_output_and_working_directory _ _ _ _ _ Hrun)
    as (imgs & fs2 & Himgs & Hframe).
  observe Himgs (λ r : outcome (list string) * FS,
                   files r.2 !! "/home/notes.txt") as Hkept.
  destruct (Hframe "/home/notes.txt") as [Hfile _].
  - vm_compute. reflexivity.
  - intros _ Heq.
    assert (Types.file_name out = "report__final__") as Hout
      by (symmetry; exact Hname).
    rewrite Hout in Heq. vm_compute in Heq. discriminate Heq.
  - rewrite Hfile. symmetry. exact Hkept.
Defined.

(** X4: with [cleanup=false] a successful run removes nothing: the
    directories are those the rasterization left, and so is every file but
    the output file; the working directory, the downloaded document and the
    page images stay. *)
Theorem without_cleanup_nothing_is_removed (E : Externals) (a : Args)
    (fs fs' : FS) (out : Types.ZeroxOutput) :
  cleanup a = false →
  zerox E a fs = (Return out, fs') →
  ∃ imgs fs2,
    page_images E a fs = (Return imgs, fs2) ∧
    dirs fs' = dirs fs2 ∧
    (∀ p, is_Some (files fs2 !! p) → is_Some (files fs' !! p)) ∧
    (∀ p,
       (Py.truthy (output_dir a) = true →
        p ≠ result_file_path (default "" (output_dir a)) (Types.file_name out)) →
       files fs' !! p = files fs2 !! p).
Proof.
  intros Hc (imgs & fs2 & vm & Himgs & _ & H)%zerox_Return_state.
  cbv zeta in H. destruct H as (_ & _ & _ & ->).
  exists imgs, fs2. split; [done|]. unfold cleaned. rewrite Hc. cbn [andb].
  split; [apply persisted_dirs|]. split.
  - intros p Hp. unfold persisted.
    destruct (Py.truthy (output_dir a)); [|done].
    unfold Os.write_file; cbn. rewrite lookup_insert. by destruct (decide _).
  - intros p Hp. by apply persisted_other_file.
Qed.

Lemma without_cleanup_nothing_is_removed_witness :
  ∃ out fs',
    zerox (Demo.externals Demo.complete)
          (Scenario.with_cleanup Demo.args false) Demo.empty_fs
    = (Return out, fs') ∧
    ∃ imgs fs2,
      page_images (Demo.externals Demo.complete)
        (Scenario.with_cleanup Demo.args false) Demo.empty_fs
      = (Return imgs, fs2) ∧
      dirs fs' = dirs fs2 ∧
      is_Some (files fs' !! "/tmp/zerox-temp/page_1.png").
Proof.
  destruct (zerox (Demo.externals Demo.complete)
              (Scenario.with_cleanup Demo.args false) Demo.empty_fs)
    as [[out|e] fs'] eqn:Hrun; [|vm_compute in Hrun; discriminate Hrun].
  exists out, fs'. split; [reflexivity|].
  destruct (without_cleanup_nothing_is_removed _
              (Scenario.with_cleanup Demo.args false) _ _ _ eq_refl Hrun)
    as (imgs & fs2 & Himgs & Hdirs & Hkeep & _).
  exists imgs, fs2. split; [exact Himgs|]. split; [exact Hdirs|].
  apply Hkeep.
  observe Himgs (λ r : outcome (list string) * FS,
                   files r.2 !! "/tmp/zerox-temp/page_1.png") as Hpage.
  exists "png". symmetry. exact Hpage.
Defined.

(** ** The page images *)

Lemma length_append (s t : string) :
  String.length (s +:+ t) = (String.length s + String.length t)%nat.
Proof.
  induction s as [|c s IH]; [reflexivity|].
  change (S (String.length (s +:+ t))
          = S (String.length s + String.length t)). by rewrite IH.
Qed.

Lemma substring_append_skip (s t : string) (n m : nat) :
  String.substring (String.length s + n) m (s +:+ t) = String.substring n m t.
Proof. induction s as [|c s IH]; [reflexivity | exact IH]. Qed.

Lemma endswith_append (s t suffix : string) :
  Py.endswith t suffix = true → Py.endswith (s +:+ t) suffix = true.
Proof.
  unfold Py.endswith. intros [Hlen Heq]%andb_true_iff.
  apply Nat.leb_le in Hlen. apply andb_true_iff. split.
  - apply Nat.leb_le. rewrite length_append. lia.
  - rewrite length_append.
    replace (String.length s + String.length t - String.length suffix)%nat
      with (String.length s + (String.length t - String.length suffix))%nat
      by lia.
    by rewrite substring_append_skip.
Qed.

Lemma page_images_enumerates (E : Externals) (a : Args) (fs fs2 : FS)
    (imgs : list string) :
  page_images E a fs = (Return imgs, fs2) →
  imgs = images E (temp_directory E a) fs2.
Proof.
  rewrite page_images_unfold.
  destruct (resolve_input E a fs) as [[local_path|e] fs1]; [|done].
  rewrite rasterize_unfold.
  destruct (convert_pdf_to_images E local_path (temp_directory E a) fs1)
    as [[[]|e] fs2']; [|done].
  by intros [= <- <-].
Qed.

Lemma png_entries_lie_under (E : Externals) (temp : string) (fs : FS) :
  Forall (λ image, Os.is_under temp image = true) (images E temp fs) ∧
  Forall (λ image, Py.endswith image ".png" = true) (images E temp fs).
Proof.
  unfold images. split; apply Forall_forall; intros image Himage;
    apply list_elem_of_In, in_map_iff in Himage as (f & <- & Hf).
  - apply is_under_entry.
  - apply filter_In in Hf as [_ Hf].
    rewrite <-append_assoc. by apply endswith_append.
Qed.

(** X5: the page images are the entries of the working directory whose name
    ends in [.png], each prefixed with the directory and a slash, in the
    order of the enumeration: every image path ends in [.png] and lies
    under the working directory, there are at most as many images as
    entries, and the path of an entry is an image exactly when the entry
    is enumerated and ends in [.png]. *)
Theorem images_are_the_png_entries (E : Externals) (temp : string) (fs : FS) :
  Forall (λ image, Py.endswith image ".png" = true
                   ∧ Os.is_under temp image = true)
         (images E temp fs) ∧
  (length (images E temp fs) ≤ length (listdir E temp fs))%nat ∧
  (∀ f, temp +:+ "/" +:+ f ∈ images E temp fs
        ↔ f ∈ listdir E temp fs ∧ Py.endswith f ".png" = true).
Proof.
  unfold images. split; [|split].
  - apply Forall_forall. intros image Himage.
    apply list_elem_of_In, in_map_iff in Himage as (f & <- & Hf).
    apply filter_In in Hf as [_ Hf]. split.
    + rewrite <-append_assoc. by apply endswith_append.
    + apply is_under_entry.
  - rewrite length_map. apply List.filter_length_le.
  - intros f. split.
    + intros Hin. apply list_elem_of_In, in_map_iff in Hin as (f' & Heq & Hf').
      apply (inj (String.app temp)), (inj (String.app "/")) in Heq as ->.
      apply filter_In in Hf' as [Hin Hpng]. split; [|done].
      by apply list_elem_of_In.
    + intros [Hin Hpng]. apply list_elem_of_In, in_map_iff.
      exists f. split; [done|]. apply filter_In. split; [|done].
      by apply list_elem_of_In.
Qed.

(** X6: when a run with [cleanup=true] completes successfully and the
    working directory existed when the page images were enumerated, nothing
    under the working directory is left: no file and no directory, and in
    particular none of the page images. *)
Theorem cleanup_empties_the_working_directory (E : Externals) (a : Args)
    (fs fs' : FS) (out : Types.ZeroxOutput) :
  cleanup a = true →
  zerox E a fs = (Return out, fs') →
  ∃ imgs fs2,
    page_images E a fs = (Return imgs, fs2) ∧
    (Os.path_exists (temp_directory E a) fs2 = true →
     (∀ p, Os.is_under (temp_directory E a) p = true →
           files fs' !! p = None ∧ p ∉ dirs fs') ∧
     Forall (λ image, files fs' !! image = None) imgs).
Proof.
  intros Hc (imgs & fs2 & vm & Himgs & _ & H)%zerox_Return_state.
  cbv zeta in H. destruct H as (_ & _ & _ & ->).
  exists imgs, fs2. split; [done|]. intros Hex.
  unfold cleaned. rewrite Hc, persisted_path_exists by done. cbn [andb].
  split; [intros p Hp; by apply rmtree_under|].
  apply page_images_enumerates in Himgs as ->.
  apply Forall_forall. intros image Himage.
  apply rmtree_under.
  destruct (png_entries_lie_under E (temp_directory E a) fs2) as [H _].
  rewrite Forall_forall in H. by apply H.
Qed.

Lemma cleanup_empties_the_working_directory_witness :
  ∃ out fs',
    zerox (Demo.externals Demo.complete) Demo.args Demo.empty_fs
    = (Return out, fs') ∧
    ∃ imgs fs2,
      page_images (Demo.externals Demo.complete) Demo.args Demo.empty_fs
      = (Return imgs, fs2) ∧
      length imgs = 3%nat ∧
      Forall (λ image, files fs' !! image = None) imgs.
Proof.
  destruct (zerox (Demo.externals Demo.complete) Demo.args Demo.empty_fs)
    as [[out|e] fs'] eqn:Hrun; [|vm_compute in Hrun; discriminate Hrun].
  exists out, fs'. split; [reflexivity|].
  destruct (cleanup_empties_the_working_directory _ Demo.args _ _ _
              eq_refl Hrun)
    as (imgs & fs2 & Himgs & Hgone).
  observe Himgs (λ r : outcome (list string) * FS,
                   Os.path_exists "/tmp/zerox-temp" r.2) as Hex.
  observe Himgs (λ r : outcome (list string) * FS,
                   match r.1 with
                   | Return l => length l
                   | Raise _ => 0%nat
                   end) as Hlen.
  exists imgs, fs2. split; [exact Himgs|]. split; [symmetry; exact Hlen|].
  apply Hgone. symmetry. exact Hex.
Defined.

(** X7: when the output file lies under the working directory, a successful
    run with [cleanup=true] removes the output it has just written: the
    file is not there when [zerox] returns (provided the working directory
    existed when the page images were enumerated). *)
Theorem output_inside_working_directory_is_removed (E : Externals) (a : Args)
    (fs fs' : FS) (out : Types.ZeroxOutput) :
  cleanup a = true →
  zerox E a fs = (Return out, fs') →
  Os.is_under (temp_directory E a)
    (result_file_path (default "" (output_dir a)) (Types.file_name out))
  = true →
  ∃ imgs fs2,
    page_images E a fs = (Return imgs, fs2) ∧
    (Os.path_exists (temp_directory E a) fs2 = true →
     files fs' !! result_file_path (default "" (output_dir a))
                    (Types.file_name out) = None).
Proof.
  intros Hc (imgs & fs2 & vm & Himgs & _ & H)%zerox_Return_state Hunder.
  cbv zeta in H. destruct H as (_ & _ & _ & ->).
  exists imgs, fs2. split; [done|]. intros Hex.
  unfold cleaned. rewrite Hc, persisted_path_exists by done. cbn [andb].
  by apply rmtree_under.
Qed.

Lemma output_inside_working_directory_is_removed_witness :
  ∃ out fs',
    zerox (Demo.externals Demo.complete)
          (Scenario.with_output_dir Demo.args (Some "/tmp/zerox-temp/out"))
          Demo.empty_fs
    = (Return out, fs') ∧
    length (Types.pages out) = 3%nat ∧
    files fs' !! "/tmp/zerox-temp/out/report__final__.md" = None.
Proof.
  destruct (zerox (Demo.externals Demo.complete)
              (Scenario.with_output_dir Demo.args (Some "/tmp/zerox-temp/out"))
              Demo.empty_fs)
    as [[out|e] fs'] eqn:Hrun; [|vm_compute in Hrun; discriminate Hrun].
  exists out, fs'. split; [reflexivity|].
  observe Hrun (λ r : outcome Types.ZeroxOutput * FS,
                  match r.1 with
                  | Return o => (Types.file_name o, length (Types.pages o))
                  | Raise _ => ("", 0%nat)
                  end) as Hout.
  assert (Types.file_name out = "report__final__") as Hname
    by (symmetry; exact (f_equal fst Hout)).
  split; [symmetry; exact (f_equal snd Hout)|].
  destruct (output_inside_working_directory_is_removed _
              (Scenario.with_output_dir Demo.args (Some "/tmp/zerox-temp/out"))
              _ _ _ eq_refl Hrun)
    as (imgs & fs2 & Himgs & Hgone).
  { rewrite Hname. vm_compute. reflexivity. }
  observe Himgs (λ r : outcome (list string) * FS,
                   Os.path_exists "/tmp/zerox-temp" r.2) as Hex.
  rewrite Hname in Hgone. apply Hgone. symmetry. exact Hex.
Defined.

(** ** The sequential branch, for any page processor *)

Lemma maintain_format_loop_counters (E : Externals) (vision_model : VisionModel)
    (temp : string) (images aggregated_markdown : list string)
    (input_token_count output_token_count : Z) (prior_page : string) :
  let looped :=
    maintain_format_loop E vision_model temp images aggregated_markdown
      input_token_count output_token_count prior_page in
  (looped.1.1.2, looped.1.2, looped.2)
  = match last (process_page_calls E vision_model temp images
                  input_token_count output_token_count prior_page) with
    | Some c => ((call_return c).1.1.2, (call_return c).1.2, (call_return c).2)
    | None => (input_token_count, output_token_count, prior_page)
    end.
Proof.
  cbv zeta.
  revert aggregated_markdown input_token_count output_token_count prior_page.
  induction images as [|image images IH]; intros acc ic oc prior; [done|].
  cbn [maintain_format_loop process_page_calls]. rewrite last_cons.
  destruct (process_page E image vision_model temp ic oc prior)
    as [[[result ic'] oc'] prior'] eqn:Hcall.
  cbn [fst snd]. rewrite IH.
  by destruct (last (process_page_calls E vision_model temp images ic' oc' prior')).
Qed.

Lemma call_text_content (c : Call) (text : string) :
  call_text c = Some text → text ≠ "".
Proof.
  unfold call_text. destruct ((call_return c).1.1.1) as [result|]; [|done].
  cbn. destruct (String.eqb_spec result ""); cbn; [done|]. by intros [= <-].
Qed.

Lemma formatted_pages_Forall (P : string → Prop) (aggregated_markdown : list string) :
  Forall P aggregated_markdown →
  Forall (λ p, P (Types.content p)) (formatted_pages aggregated_markdown).
Proof.
  intros HP. apply Forall_forall. intros p Hp.
  rewrite Forall_forall in HP. apply HP.
  rewrite <-(formatted_pages_content aggregated_markdown).
  apply list_elem_of_In, in_map. by apply list_elem_of_In.
Qed.

Lemma process_pages_sequential (E : Externals) (a : Args)
    (vision_model : VisionModel) (temp : string) (imgs : list string) :
  maintain_format a = true →
  (process_pages E a vision_model temp imgs 0 0 "").1.1
  = omap call_text (process_page_calls E vision_model temp imgs 0 0 "") ∧
  ((process_pages E a vision_model temp imgs 0 0 "").1.2,
   (process_pages E a vision_model temp imgs 0 0 "").2)
  = match last (process_page_calls E vision_model temp imgs 0 0 "") with
    | Some c => ((call_return c).1.1.2, (call_return c).1.2)
    | None => (0, 0)
    end.
Proof.
  intros Hmf. unfold process_pages. rewrite Hmf.
  pose proof (maintain_format_loop_calls E vision_model temp imgs [] 0 0 "")
    as Hagg.
  pose proof (maintain_format_loop_counters E vision_model temp imgs [] 0 0 "")
    as Hcnt.
  cbv zeta in Hcnt.
  destruct (maintain_format_loop E vision_model temp imgs [] 0 0 "")
    as [[[agg ic] oc] prior].
  cbn [fst snd] in *. split; [exact Hagg|].
  destruct (last (process_page_calls E vision_model temp imgs 0 0 ""));
    by injection Hcnt as -> -> _.
Qed.

(** X8: in a run with [maintain_format=true] no page of the output is
    empty: every page has a content other than the empty string and a
    positive [content_length]. *)
Theorem sequential_pages_have_content (E : Externals) (a : Args) (fs fs' : FS)
    (out : Types.ZeroxOutput) :
  maintain_format a = true →
  zerox E a fs = (Return out, fs') →
  Forall (λ p, Types.content p ≠ "" ∧ 0 < Types.content_length p)
         (Types.pages out).
Proof.
  intros Hmf (imgs & fs2 & vm & _ & _ & H)%zerox_Return_state.
  cbv zeta in H. destruct H as (-> & _).
  destruct (process_pages_sequential E a vm (temp_directory E a) imgs Hmf)
    as [-> _].
  apply Forall_forall. intros p Hp.
  assert (Types.content p ≠ "") as Hcontent.
  { revert p Hp. apply Forall_forall.
    apply (formatted_pages_Forall (λ text, text ≠ "")).
    apply Forall_forall. intros text Htext.
    apply list_elem_of_omap in Htext as (c & _ & Hc).
    by eapply call_text_content. }
  split; [done|].
  pose proof (formatted_pages_content_length
                (omap call_text
                   (process_page_calls E vm (temp_directory E a) imgs 0 0 "")))
    as Hlen.
  rewrite Forall_forall in Hlen. rewrite (Hlen p Hp).
  destruct (Types.content p); [done | cbn; lia].
Qed.

Lemma sequential_pages_have_content_witness :
  ∃ out fs',
    zerox (Demo.externals Demo.complete_failing)
          (Demo.with_maintain_format Demo.args true) Demo.empty_fs
    = (Return out, fs') ∧
    length (Types.pages out) = 2%nat ∧
    Forall (λ p, Types.content p ≠ "" ∧ 0 < Types.content_length p)
           (Types.pages out).
Proof.
  destruct (zerox (Demo.externals Demo.complete_failing)
              (Demo.with_maintain_format Demo.args true) Demo.empty_fs)
    as [[out|e] fs'] eqn:Hrun; [|vm_compute in Hrun; discriminate Hrun].
  exists out, fs'. split; [reflexivity|].
  observe Hrun (λ r : outcome Types.ZeroxOutput * FS,
                  match r.1 with
                  | Return o => length (Types.pages o)
                  | Raise _ => 0%nat
                  end) as Hlen.
  split; [symmetry; exact Hlen|].
  exact (sequential_pages_have_content _
           (Demo.with_maintain_format Demo.args true) _ _ _ eq_refl Hrun).
Defined.

(** X9: in a run with [maintain_format=true] the token totals of the output
    are the two counters the last call of [process_page] returned, and 0
    and 0 when there is no page image: the orchestrator adds nothing
    itself. *)
Theorem sequential_totals_are_the_last_counters (E : Externals) (a : Args)
    (fs fs' : FS) (out : Types.ZeroxOutput) :
  maintain_format a = true →
  zerox E a fs = (Return out, fs') →
  ∃ imgs fs2 vision_model,
    page_images E a fs = (Return imgs, fs2) ∧
    make_vision_model E a = Return vision_model ∧
    (Types.input_tokens out, Types.output_tokens out)
    = match last (process_page_calls E vision_model (temp_directory E a)
                    imgs 0 0 "") with
      | Some c => ((call_return c).1.1.2, (call_return c).1.2)
      | None => (0, 0)
      end.
Proof.
  intros Hmf (imgs & fs2 & vm & Himgs & Hvm & H)%zerox_Return_state.
  cbv zeta in H. destruct H as (_ & -> & -> & _).
  exists imgs, fs2, vm. split; [done|]. split; [done|].
  by destruct (process_pages_sequential E a vm (temp_directory E a) imgs Hmf)
    as [_ ->].
Qed.

Lemma sequential_totals_are_the_last_counters_witness :
  ∃ out fs',
    zerox (Demo.externals Demo.complete)
          (Demo.with_maintain_format Demo.args true) Demo.empty_fs
    = (Return out, fs') ∧
    ∃ imgs fs2 vision_model,
      page_images (Demo.externals Demo.complete)
        (Demo.with_maintain_format Demo.args true) Demo.empty_fs
      = (Return imgs, fs2) ∧
      (Types.input_tokens out, Types.output_tokens out)
      = match last (process_page_calls (Demo.externals Demo.complete)
                      vision_model "/tmp/zerox-temp" imgs 0 0 "") with
        | Some c => ((call_return c).1.1.2, (call_return c).1.2)
        | None => (0, 0)
        end.
Proof.
  destruct (zerox (Demo.externals Demo.complete)
              (Demo.with_maintain_format Demo.args true) Demo.empty_fs)
    as [[out|e] fs'] eqn:Hrun; [|vm_compute in Hrun; discriminate Hrun].
  exists out, fs'. split; [reflexivity|].
  destruct (sequential_totals_are_the_last_counters _
              (Demo.with_maintain_format Demo.args true) _ _ _ eq_refl Hrun)
    as (imgs & fs2 & vm & Himgs & _ & Htotals).
  exists imgs, fs2, vm. split; [exact Himgs | exact Htotals].
Defined.

(** X10: a run with [maintain_format=true] in which no page image is
    enumerated returns an output without pages and with both token totals
    at 0; when an output directory is configured the output file is written
    all the same, empty (and is there at return unless cleanup removes it
    with the working directory). *)
Theorem sequential_run_without_images (E : Externals) (a : Args)
    (fs fs' fs2 : FS) (out : Types.ZeroxOutput) :
  maintain_format a = true →
  page_images E a fs = (Return [], fs2) →
  zerox E a fs = (Return out, fs') →
  Types.pages out = [] ∧
  Types.input_tokens out = 0 ∧
  Types.output_tokens out = 0 ∧
  (Py.truthy (output_dir a) = true →
   cleanup a = false
   ∨ Os.is_under (temp_directory E a)
       (result_file_path (default "" (output_dir a)) (Types.file_name out))
     = false →
   files fs' !! result_file_path (default "" (output_dir a))
                  (Types.file_name out) = Some "").
Proof.
  intros Hmf Hnone (imgs & fs2' & vm & Himgs & _ & H)%zerox_Return_state.
  rewrite Hnone in Himgs. injection Himgs as <- <-.
  cbv zeta in H. destruct H as (-> & -> & -> & ->).
  destruct (process_pages_sequential E a vm (temp_directory E a) [] Hmf)
    as [Hagg Hcnt].
  change ((process_pages E a vm (temp_directory E a) [] 0 0 "").1.1 = [])
    in Hagg.
  change (((process_pages E a vm (temp_directory E a) [] 0 0 "").1.2,
           (process_pages E a vm (temp_directory E a) [] 0 0 "").2) = (0, 0))
    in Hcnt.
  rewrite Hagg. injection Hcnt as -> ->.
  split; [done|]. split; [done|]. split; [done|].
  intros Hod Hkeep. unfold cleaned, persisted. rewrite Hod.
  destruct (cleanup a && Os.path_exists _ _) eqn:Hc;
    [|apply write_file_lookup].
  destruct Hkeep as [Hk|Hk]; [by rewrite Hk in Hc|].
  rewrite rmtree_keeps_file by done. apply write_file_lookup.
Qed.

Lemma sequential_run_without_images_witness :
  ∃ out fs',
    zerox (Scenario.with_rasterization (Demo.externals Demo.complete)
             Scenario.blank_document)
          (Demo.with_maintain_format Demo.args true) Demo.empty_fs
    = (Return out, fs') ∧
    Types.pages out = [] ∧
    Types.input_tokens out = 0 ∧
    Types.output_tokens out = 0 ∧
    files fs' !! "/out/report__final__.md" = Some "".
Proof.
  destruct (zerox (Scenario.with_rasterization (Demo.externals Demo.complete)
                     Scenario.blank_document)
              (Demo.with_maintain_format Demo.args true) Demo.empty_fs)
    as [[out|e] fs'] eqn:Hrun; [|vm_compute in Hrun; discriminate Hrun].
  exists out, fs'. split; [reflexivity|].
  destruct (page_images (Scenario.with_rasterization
                           (Demo.externals Demo.complete)
                           Scenario.blank_document)
              (Demo.with_maintain_format Demo.args true) Demo.empty_fs)
    as [[imgs|e] fs2] eqn:Himgs; [|vm_compute in Himgs; discriminate Himgs].
  observe Himgs (λ r : outcome (list string) * FS,
                   match r.1 with Return l => l | Raise _ => [""] end)
    as Hnone.
  cbn in Hnone. subst imgs.
  observe Hrun (λ r : outcome Types.ZeroxOutput * FS,
                  match r.1 with
                  | Return o => Types.file_name o
                  | Raise _ => ""
                  end) as Hname.
  assert (Types.file_name out = "report__final__") as Hout
    by (symmetry; exact Hname).
  destruct (sequential_run_without_images _
              (Demo.with_maintain_format Demo.args true) _ _ _ _
              eq_refl Himgs Hrun)
    as (Hpages & Hin & Hout_tokens & Hfile).
  split; [exact Hpages|]. split; [exact Hin|]. split; [exact Hout_tokens|].
  rewrite Hout in Hfile. apply Hfile; [reflexivity|].
  right. vm_compute. reflexivity.
Defined.

(** ** The batched branch, for any batch scheduler *)

Lemma sum_is_foldr (xs : list Z) : Py.sum xs = foldr Z.add 0 xs.
Proof.
  induction xs as [|x xs IH]; [done|]. rewrite sum_cons, IH. done.
Qed.

(** X11: in a run with [maintain_format=false] the token totals of the
    output are the sums of the second and of the third component over all
    the entries [process_pages_in_batches] returns, also over the entries
    whose result is not a string and which give no page. *)
Theorem batched_totals_count_every_entry (E : Externals) (a : Args)
    (fs fs' : FS) (out : Types.ZeroxOutput) :
  maintain_format a = false →
  zerox E a fs = (Return out, fs') →
  ∃ imgs fs2 vision_model,
    page_images E a fs = (Return imgs, fs2) ∧
    make_vision_model E a = Return vision_model ∧
    let results :=
      process_pages_in_batches E imgs (concurrency a) vision_model
        (temp_directory E a) 0 0 "" in
    Types.input_tokens out
    = foldr Z.add 0 (map (λ result : batch_entry, result.1.2) results) ∧
    Types.output_tokens out
    = foldr Z.add 0 (map (λ result : batch_entry, result.2) results) ∧
    (length (Types.pages out) ≤ length results)%nat.
Proof.
  intros Hmf (imgs & fs2 & vm & Himgs & Hvm & H)%zerox_Return_state.
  cbv zeta in H. destruct H as (-> & -> & -> & _).
  exists imgs, fs2, vm. split; [done|]. split; [done|].
  unfold process_pages. rewrite Hmf. cbv zeta. cbn [fst snd].
  rewrite !Z.add_0_l, !sum_is_foldr, formatted_pages_length.
  split; [done|]. split; [done|]. apply length_omap_le.
Qed.

Lemma batched_totals_count_every_entry_witness :
  ∃ out fs',
    zerox (Demo.externals Demo.complete_failing) Demo.args Demo.empty_fs
    = (Return out, fs') ∧
    Types.input_tokens out = 20 ∧
    length (Types.pages out) = 2%nat ∧
    ∃ imgs fs2 vision_model,
      page_images (Demo.externals Demo.complete_failing) Demo.args
        Demo.empty_fs
      = (Return imgs, fs2) ∧
      Types.input_tokens out
      = foldr Z.add 0
          (map (λ result : batch_entry, result.1.2)
               (process_pages_in_batches (Demo.externals Demo.complete_failing)
                  imgs 2 vision_model "/tmp/zerox-temp" 0 0 "")).
Proof.
  destruct (zerox (Demo.externals Demo.complete_failing) Demo.args
              Demo.empty_fs)
    as [[out|e] fs'] eqn:Hrun; [|vm_compute in Hrun; discriminate Hrun].
  exists out, fs'. split; [reflexivity|].
  observe Hrun (λ r : outcome Types.ZeroxOutput * FS,
                  match r.1 with
                  | Return o => (Types.input_tokens o, length (Types.pages o))
                  | Raise _ => (0, 0%nat)
                  end) as Hout.
  split; [symmetry; exact (f_equal fst Hout)|].
  split; [symmetry; exact (f_equal snd Hout)|].
  destruct (batched_totals_count_every_entry _ Demo.args _ _ _ eq_refl Hrun)
    as (imgs & fs2 & vm & Himgs & _ & Hin & _).
  exists imgs, fs2, vm. split; [exact Himgs | exact Hin].
Defined.

(** ** The model object *)

(** X12: the model object the pages are processed with is the one
    [litellmmodel] built from [model] and [kwargs], with its system prompt
    replaced by [custom_system_prompt] when that is a non-empty string and
    left alone when it is [None] or empty; model name and keyword arguments
    are never touched. *)
Theorem custom_system_prompt_overrides (E : Externals) (a : Args)
    (fs fs' : FS) (out : Types.ZeroxOutput) :
  zerox E a fs = (Return out, fs') →
  ∃ built vision_model imgs fs2,
    litellmmodel E (model a) (kwargs a) = Return built ∧
    page_images E a fs = (Return imgs, fs2) ∧
    vm_model vision_model = vm_model built ∧
    vm_kwargs vision_model = vm_kwargs built ∧
    system_prompt vision_model
    = (if Py.truthy (custom_system_prompt a)
       then default "" (custom_system_prompt a)
       else system_prompt built) ∧
    Types.pages out
    = formatted_pages
        (process_pages E a vision_model (temp_directory E a) imgs 0 0 "").1.1.
Proof.
  intros (imgs & fs2 & vm & Himgs & Hvm & H)%zerox_Return_state.
  cbv zeta in H. destruct H as (Hpages & _).
  apply make_vision_model_Return in Hvm as (built & Hbuilt & ->).
  exists built. eexists. exists imgs, fs2.
  split; [exact Hbuilt|]. split; [exact Himgs|].
  split; [|split; [|split; [|exact Hpages]]];
    by destruct (Py.truthy (custom_system_prompt a)).
Qed.

Lemma custom_system_prompt_overrides_witness :
  ∃ out fs',
    zerox (Demo.externals Demo.complete)
          (Scenario.with_custom_system_prompt Demo.args (Some "Tables only."))
          Demo.empty_fs
    = (Return out, fs') ∧
    ∃ vision_model imgs,
      vm_model vision_model = "gpt-4o-mini" ∧
      system_prompt vision_model = "Tables only." ∧
      Types.pages out
      = formatted_pages
          (process_pages (Demo.externals Demo.complete)
             (Scenario.with_custom_system_prompt Demo.args
                (Some "Tables only."))
             vision_model "/tmp/zerox-temp" imgs 0 0 "").1.1.
Proof.
  destruct (zerox (Demo.externals Demo.complete)
              (Scenario.with_custom_system_prompt Demo.args
                 (Some "Tables only."))
              Demo.empty_fs)
    as [[out|e] fs'] eqn:Hrun; [|vm_compute in Hrun; discriminate Hrun].
  exists out, fs'. split; [reflexivity|].
  destruct (custom_system_prompt_overrides _ _ _ _ _ Hrun)
    as (built & vm & imgs & fs2 & Hbuilt & _ & Hmodel & _ & Hprompt & Hpages).
  injection Hbuilt as <-.
  exists vm, imgs. split; [exact Hmodel|]. split; [exact Hprompt|].
  exact Hpages.
Defined.

(** ** The output path *)

Lemma startswith_not_separator (s : string) :
  "/"%char ∉ String.list_ascii_of_string s →
  Py.startswith (s +:+ ".md") "/" = false.
Proof.
  destruct s as [|c s]; [reflexivity|]. intros Hc.
  change ((if ascii_dec "/" c then String.prefix "" (s +:+ ".md") else false)
          = false).
  destruct (ascii_dec "/" c) as [<-|_]; [|done].
  destruct Hc. apply elem_of_cons. by left.
Qed.

Lemma file_name_chars (E : Externals) (raw : string) (bad : ascii) :
  bad ≠ "_"%char →
  (∀ c, isalnum E c = true → bad ∉ String.list_ascii_of_string (lower E c)) →
  bad ∉ String.list_ascii_of_string (file_name E raw).
Proof.
  intros Hbad Hlower. induction raw as [|c raw IH]; [apply not_elem_of_nil|].
  rewrite file_name_cons, list_ascii_of_string_app.
  apply not_elem_of_app. split; [|exact IH].
  destruct (isalnum E c) eqn:Hc; [by apply Hlower|].
  apply not_elem_of_cons. split; [done | apply not_elem_of_nil].
Qed.

(** X13: when the lowercase form of no alphanumeric character contains a
    slash, the document name contains no slash whatever the document is
    called, and the output file is [output_dir], a slash unless
    [output_dir] is empty or ends in one, the document name and [.md]: its
    path starts with [output_dir]. *)
Theorem output_file_is_inside_output_dir (E : Externals) (raw d : string) :
  (∀ c, isalnum E c = true
        → "/"%char ∉ String.list_ascii_of_string (lower E c)) →
  ("/"%char ∉ String.list_ascii_of_string (file_name E raw)) ∧
  result_file_path d (file_name E raw)
  = (if String.eqb d "" || Py.endswith d "/"
     then d +:+ file_name E raw +:+ ".md"
     else d +:+ "/" +:+ file_name E raw +:+ ".md") ∧
  Py.startswith (result_file_path d (file_name E raw)) d = true.
Proof.
  intros Hlower.
  assert ("/"%char ∉ String.list_ascii_of_string (file_name E raw)) as Hname.
  { apply file_name_chars; [discriminate | exact Hlower]. }
  assert (result_file_path d (file_name E raw)
          = (if String.eqb d "" || Py.endswith d "/"
             then d +:+ file_name E raw +:+ ".md"
             else d +:+ "/" +:+ file_name E raw +:+ ".md")) as Hpath.
  { unfold result_file_path, OsPath.join.
    by rewrite startswith_not_separator. }
  split; [exact Hname|]. split; [exact Hpath|].
  rewrite Hpath. unfold Py.startswith.
  destruct (String.eqb d "" || Py.endswith d "/"); apply prefix_append.
Qed.

Lemma ascii_lower_has_no_separator (c : ascii) :
  Demo.ascii_isalnum c = true →
  "/"%char ∉ String.list_ascii_of_string (Demo.ascii_lower c).
Proof.
  destruct c as [[] [] [] [] [] [] [] []]; intros Hc Hin;
    vm_compute in Hc; try discriminate Hc;
    apply list_elem_of_singleton in Hin; discriminate Hin.
Qed.

Lemma output_file_is_inside_output_dir_witness :
  file_name (Demo.externals Demo.complete) "../../etc/passwd"
  = "______etc_passwd" ∧
  result_file_path "/out"
    (file_name (Demo.externals Demo.complete) "../../etc/passwd")
  = "/out/______etc_passwd.md" ∧
  Py.startswith
    (result_file_path "/out"
       (file_name (Demo.externals Demo.complete) "../../etc/passwd"))
    "/out" = true.
Proof.
  destruct (output_file_is_inside_output_dir (Demo.externals Demo.complete)
              "../../etc/passwd" "/out" ascii_lower_has_no_separator)
    as (_ & Hpath & Hinside).
  split; [reflexivity|]. split; [|exact Hinside].
  rewrite Hpath. reflexivity.
Defined.

(** ** What the document name forgets *)

(** X14: two base names of the same length that differ only where both
    have a character that is not alphanumeric get the same document name,
    and so the same output file. *)
Theorem file_names_collide (E : Externals) (raw1 raw2 : string) :
  Forall2 (λ c1 c2, c1 = c2 ∨ (isalnum E c1 = false ∧ isalnum E c2 = false))
          (String.list_ascii_of_string raw1)
          (String.list_ascii_of_string raw2) →
  file_name E raw1 = file_name E raw2 ∧
  ∀ d, result_file_path d (file_name E raw1)
       = result_file_path d (file_name E raw2).
Proof.
  intros Hsame.
  assert (file_name E raw1 = file_name E raw2) as Heq.
  { unfold file_name. f_equal.
    induction Hsame as [|c1 c2 l1 l2 Hc _ IH]; [done|].
    cbn [map]. rewrite IH. f_equal.
    destruct Hc as [->|[-> ->]]; done. }
  split; [exact Heq|]. intros d. by rewrite Heq.
Qed.

Lemma file_names_collide_witness :
  file_name (Demo.externals Demo.complete) "q3 report"
  = file_name (Demo.externals Demo.complete) "q3-report" ∧
  result_file_path "/out" (file_name (Demo.externals Demo.complete) "q3 report")
  = "/out/q3_report.md".
Proof.
  destruct (file_names_collide (Demo.externals Demo.complete)
              "q3 report" "q3-report") as [Hname Hpath].
  - cbn [String.list_ascii_of_string].
    repeat (constructor;
            [first [left; reflexivity | right; split; reflexivity]|]).
    constructor.
  - split; [exact Hname | reflexivity].
Defined.

(** X15: when the lowercase form of every alphanumeric character is one
    character, the document name has the length of the base name. *)
Theorem file_name_keeps_the_length (E : Externals) (raw : string) :
  (∀ c, isalnum E c = true → String.length (lower E c) = 1%nat) →
  String.length (file_name E raw) = String.length raw.
Proof.
  intros Hone. induction raw as [|c raw IH]; [reflexivity|].
  rewrite file_name_cons, length_append, IH.
  change (String.length (String c raw)) with (S (String.length raw)).
  destruct (isalnum E c) eqn:Hc; [by rewrite Hone | reflexivity].
Qed.

Lemma file_name_keeps_the_length_witness :
  String.length (file_name (Demo.externals Demo.complete) "Report (Final)!")
  = 15%nat.
Proof.
  rewrite (file_name_keeps_the_length (Demo.externals Demo.complete)).
  - reflexivity.
  - intros c _. reflexivity.
Defined.

(** ** Empty results in the batched branch *)

(** X16: in a run with [maintain_format=false] an entry of the scheduler
    whose result is the empty string gives a page all the same: the output
    has a page with empty content and [content_length] 0. *)
Theorem batched_pages_may_be_empty (E : Externals) (a : Args) (fs fs' : FS)
    (out : Types.ZeroxOutput) :
  maintain_format a = false →
  zerox E a fs = (Return out, fs') →
  ∃ imgs fs2 vision_model,
    page_images E a fs = (Return imgs, fs2) ∧
    make_vision_model E a = Return vision_model ∧
    ∀ entry : batch_entry,
      entry ∈ process_pages_in_batches E imgs (concurrency a) vision_model
                (temp_directory E a) 0 0 "" →
      entry.1.1 = Some "" →
      ∃ p, p ∈ Types.pages out
           ∧ Types.content p = "" ∧ Types.content_length p = 0.
Proof.
  intros Hmf (imgs & fs2 & vm & Himgs & Hvm & H)%zerox_Return_state.
  cbv zeta in H. destruct H as (Hpages & _).
  exists imgs, fs2, vm. split; [done|]. split; [done|].
  intros entry Hentry Hempty.
  assert ("" ∈ map Types.content (Types.pages out)) as Hin.
  { rewrite Hpages, formatted_pages_content.
    unfold process_pages. rewrite Hmf. cbv zeta. cbn [fst].
    apply list_elem_of_omap. by exists entry. }
  apply list_elem_of_In, in_map_iff in Hin as (p & Hcontent & Hp).
  exists p. split; [by apply list_elem_of_In|]. split; [done|].
  pose proof (formatted_pages_content_length
                (process_pages E a vm (temp_directory E a) imgs 0 0 "").1.1)
    as Hlen.
  rewrite <-Hpages, Forall_forall in Hlen.
  rewrite (Hlen p) by (by apply list_elem_of_In). by rewrite Hcontent.
Qed.

Lemma batched_pages_may_be_empty_witness :
  ∃ out fs',
    zerox (spec_externals (Demo.externals Demo.complete) Scenario.silent
             Demo.latency) Demo.args Demo.empty_fs
    = (Return out, fs') ∧
    ∃ p, p ∈ Types.pages out
         ∧ Types.content p = "" ∧ Types.content_length p = 0.
Proof.
  destruct (zerox (spec_externals (Demo.externals Demo.complete)
                     Scenario.silent Demo.latency) Demo.args Demo.empty_fs)
    as [[out|e] fs'] eqn:Hrun; [|vm_compute in Hrun; discriminate Hrun].
  exists out, fs'. split; [reflexivity|].
  destruct (batched_pages_may_be_empty _ Demo.args _ _ _ eq_refl Hrun)
    as (imgs & fs2 & vm & Himgs & _ & Hempty).
  apply (Hempty (Some "", 7, 0)); [|reflexivity].
  observe Himgs (λ r : outcome (list string) * FS,
                   match r.1 with Return l => l | Raise _ => [] end)
    as Hlist.
  cbn in Hlist. subst imgs. vm_compute. apply elem_of_cons. by left.
Defined.

(** * Number of pages, and the persisted output *)

(** ** Number and numbering of the pages *)







(** ** Persisting the output *)

Lemma persisting_run (E : Externals) (a : Args) (fs fs' : FS)
    (out : Types.ZeroxOutput) (d : string) :
  output_dir a = Some d →
  d ≠ "" →
  zerox E a fs = (Return out, fs') →
  let path := OsPath.join d (Types.file_name out +:+ ".md") in
  let text :=
    Py.join (String "010"%char (String "010"%char EmptyString))
      (map Types.content (Types.pages out)) in
  ∃ imgs fs2,
    page_images E a fs = (Return imgs, fs2) ∧
    fs' = cleaned a (temp_directory E a) (Os.write_file path text fs2) ∧
    (cleanup a = false ∨ Os.is_under (temp_directory E a) path = false →
     files fs' !! path = Some text) ∧
    (is_Some (files fs2 !! path) →
     ∀ p, Os.is_under (temp_directory E a) p = false →
          is_Some (files fs' !! p) ↔ is_Some (files fs2 !! p)).
Proof.
  intros Hod Hd (imgs & fs2 & vm & Himgs & _ & H)%zerox_Return_state.
  cbv zeta in H. destruct H as (Hpages & _ & _ & ->). cbv zeta.
  rewrite Hpages, formatted_pages_content.
  assert (persisted a (Types.file_name out)
            (process_pages E a vm (temp_directory E a) imgs 0 0 "").1.1 fs2
          = Os.write_file (OsPath.join d (Types.file_name out +:+ ".md"))
              (Py.join (String "010"%char (String "010"%char EmptyString))
                 (process_pages E a vm (temp_directory E a) imgs 0 0 "").1.1)
              fs2) as ->.
  { unfold persisted. rewrite Hod. cbn [Py.truthy default].
    by destruct (String.eqb_spec d ""). }
  exists imgs, fs2. split; [done|]. split; [done|].
  unfold cleaned. split.
  - intros Hkeep. destruct (cleanup a && Os.path_exists _ _) eqn:Hc;
      [|apply write_file_lookup].
    destruct Hkeep as [Hk|Hk]; [by rewrite Hk in Hc|].
    rewrite rmtree_keeps_file by done. apply write_file_lookup.
  - intros Hthere p Hp.
    assert (files (if cleanup a && Os.path_exists (temp_directory E a)
                        (Os.write_file
                           (OsPath.join d (Types.file_name out +:+ ".md"))
                           (Py.join
                              (String "010"%char
                                 (String "010"%char EmptyString))
                              (process_pages E a vm (temp_directory E a)
                                 imgs 0 0 "").1.1) fs2)
                   then Os.rmtree (temp_directory E a)
                          (Os.write_file
                             (OsPath.join d (Types.file_name out +:+ ".md"))
                             (Py.join
                                (String "010"%char
                                   (String "010"%char EmptyString))
                                (process_pages E a vm (temp_directory E a)
                                   imgs 0 0 "").1.1) fs2)
                   else Os.write_file
                          (OsPath.join d (Types.file_name out +:+ ".md"))
                          (Py.join
                             (String "010"%char
                                (String "010"%char EmptyString))
                             (process_pages E a vm (temp_directory E a)
                                imgs 0 0 "").1.1) fs2) !! p
            = <[OsPath.join d (Types.file_name out +:+ ".md") :=
                  Py.join (String "010"%char (String "010"%char EmptyString))
                    (process_pages E a vm (temp_directory E a) imgs 0 0 "").1.1]>
                (files fs2) !! p) as ->.
    { destruct (cleanup a && Os.path_exists _ _); [|done].
      by rewrite rmtree_keeps_file. }
    rewrite lookup_insert. destruct (decide _) as [<-|]; [|done].
    split; [done | by eexists].
Qed.

(** C8: a successful run with [output_dir] configured writes the contents of
    the pages, in page order and joined by two line feeds (a blank line),
    to [<output_dir>/<file_name>.md], whatever that file held before: the
    file holds exactly this text when [zerox] returns, unless cleanup
    removes it with the working directory.  When the file was there
    already, the run adds no file outside its working directory.  So when
    the same document is persisted to the same output directory by a second
    run, started where the first one returned, the file holds the text of
    the second run and no further file appears. *)
Theorem persist_overwrites (E : Externals) (a : Args) (fs fs' : FS)
    (out : Types.ZeroxOutput) (d : string) :
  output_dir a = Some d →
  d ≠ "" →
  zerox E a fs = (Return out, fs') →
  let path := OsPath.join d (Types.file_name out +:+ ".md") in
  let blank := String "010"%char (String "010"%char EmptyString) in
  (∃ imgs fs2,
     page_images E a fs = (Return imgs, fs2) ∧
     fs' = cleaned a (temp_directory E a)
             (Os.write_file path
                (Py.join blank (map Types.content (Types.pages out))) fs2) ∧
     (cleanup a = false ∨ Os.is_under (temp_directory E a) path = false →
      files fs' !! path
      = Some (Py.join blank (map Types.content (Types.pages out)))) ∧
     (is_Some (files fs2 !! path) →
      ∀ p, Os.is_under (temp_directory E a) p = false →
           is_Some (files fs' !! p) ↔ is_Some (files fs2 !! p))) ∧
  (∀ (E2 : Externals) (a2 : Args) (fs'' : FS) (out2 : Types.ZeroxOutput),
     output_dir a2 = Some d →
     zerox E2 a2 fs' = (Return out2, fs'') →
     Types.file_name out2 = Types.file_name out →
     ∃ imgs3 fs3,
       page_images E2 a2 fs' = (Return imgs3, fs3) ∧
       (cleanup a2 = false ∨ Os.is_under (temp_directory E2 a2) path = false →
        files fs'' !! path
        = Some (Py.join blank (map Types.content (Types.pages out2)))) ∧
       (is_Some (files fs3 !! path) →
        ∀ p, Os.is_under (temp_directory E2 a2) p = false →
             is_Some (files fs'' !! p) ↔ is_Some (files fs3 !! p))).
Proof.
  intros Hod Hd Hrun. cbv zeta. split.
  - exact (persisting_run E a fs fs' out d Hod Hd Hrun).
  - intros E2 a2 fs'' out2 Hod2 Hrun2 Hname.
    destruct (persisting_run E2 a2 fs' fs'' out2 d Hod2 Hd Hrun2)
      as (imgs3 & fs3 & Himgs & _ & Hfile & Hsame).
    rewrite Hname in Hfile, Hsame. by exists imgs3, fs3.
Qed.

Lemma persist_overwrites_witness :
  ∃ out fs' out2 fs'',
    zerox (Demo.externals Demo.complete) Demo.args Demo.empty_fs
    = (Return out, fs') ∧
    zerox (Demo.externals Demo.complete_failing) Demo.args fs'
    = (Return out2, fs'') ∧
    files fs'' !! "/out/report__final__.md"
    = Some ("page_3.png<>" +:+ Scenario.line_feed +:+ Scenario.line_feed
            +:+ "page_1.png<>") ∧
    dom (files fs'') = {["/out/report__final__.md"]}.
Proof.
  destruct (zerox (Demo.externals Demo.complete) Demo.args Demo.empty_fs)
    as [[out|e] fs'] eqn:Hrun; [|vm_compute in Hrun; discriminate Hrun].
  assert (fs' = (zerox (Demo.externals Demo.complete) Demo.args
                   Demo.empty_fs).2) as Hfs by (by rewrite Hrun).
  destruct (zerox (Demo.externals Demo.complete_failing) Demo.args fs')
    as [[out2|e] fs''] eqn:Hrun2;
    [|rewrite Hfs in Hrun2; vm_compute in Hrun2; discriminate Hrun2].
  exists out, fs', out2, fs''. split; [reflexivity|]. split; [exact Hrun2|].
  pose proof Hrun2 as Hagain. rewrite Hfs in Hagain.
  observe Hrun (λ r : outcome Types.ZeroxOutput * FS,
                  match r.1 with
                  | Return o => Types.file_name o
                  | Raise _ => ""
                  end) as Hname.
  observe Hagain (λ r : outcome Types.ZeroxOutput * FS,
                    match r.1 with
                    | Return o =>
                        (Types.file_name o, map Types.content (Types.pages o))
                    | Raise _ => ("", [])
                    end) as Hout2.
  observe Hagain (λ r : outcome Types.ZeroxOutput * FS, dom (files r.2))
    as Hdom.
  assert (Types.file_name out = "report__final__") as Hfirst
    by (symmetry; exact Hname).
  assert (Types.file_name out2 = "report__final__") as Hsecond
    by (symmetry; exact (f_equal fst Hout2)).
  assert (map Types.content (Types.pages out2)
          = ["page_3.png<>"; "page_1.png<>"]) as Hpages
    by (symmetry; exact (f_equal snd Hout2)).
  pose proof (persist_overwrites (Demo.externals Demo.complete) Demo.args
                Demo.empty_fs fs' out "/out" eq_refl ltac:(discriminate) Hrun)
    as Htwice.
  cbv zeta in Htwice. destruct Htwice as [_ Htwice].
  destruct (Htwice (Demo.externals Demo.complete_failing) Demo.args fs'' out2
              eq_refl Hrun2 (eq_trans Hsecond (eq_sym Hfirst)))
    as (imgs3 & fs3 & _ & Hfile & _).
  rewrite Hfirst, Hpages in Hfile. split.
  - apply Hfile. right. vm_compute. reflexivity.
  - symmetry. exact Hdom.
Defined.

(** * Failing runs *)

(** X1: when neither directory path is occupied by a regular file, an
    exception of the download, or of the rasterization after a download
    that returned a path, propagates out of [zerox] unchanged, and the run
    stops in the file system the failing call left: whatever [cleanup] is,
    the working directory is not removed and no output is written. *)
Theorem stage_failures_propagate (E : Externals) (a : Args) (fs fs1 : FS)
    (e : exn) :
  Py.truthy (file_path a) = true →
  (Py.truthy (output_dir a) = true →
   files fs !! default "" (output_dir a) = None) →
  files fs !! temp_directory E a = None →
  let temp := temp_directory E a in
  let download :=
    download_file E (default "" (file_path a)) temp (prepared E a fs) in
  (download = (Raise e, fs1) → zerox E a fs = (Raise e, fs1)) ∧
  (∀ local_path fs0,
     download = (Return (Some local_path), fs0) →
     local_path ≠ "" →
     convert_pdf_to_images E local_path temp fs0 = (Raise e, fs1) →
     zerox E a fs = (Raise e, fs1)).
Proof.
  intros Hfp _ _. cbv zeta. rewrite zerox_unfold, resolve_input_unfold, Hfp.
  split.
  - by intros ->.
  - intros local_path fs0 -> Hne Hconv.
    assert (Py.truthy (Some local_path) = true) as ->.
    { cbn. by apply negb_true_iff, String.eqb_neq. }
    cbn [default]. unfold id. by rewrite rasterize_unfold, Hconv.
Qed.

Lemma stage_failures_propagate_witness :
  ∃ fs1,
    zerox (Scenario.with_rasterization (Demo.externals Demo.complete)
             Scenario.broken_document)
          Demo.args Demo.empty_fs
    = (Raise (OtherError "cannot render the document"), fs1) ∧
    Os.path_exists "/tmp/zerox-temp" fs1 = true ∧
    files fs1 !! "/out/report__final__.md" = None.
Proof.
  destruct (Demo.fetch "/docs/Report (Final)!.pdf" "/tmp/zerox-temp"
              (prepared (Demo.externals Demo.complete) Demo.args
                 Demo.empty_fs))
    as [download fs0] eqn:Hdownload.
  exists fs0.
  observe Hdownload (λ r : outcome (option string) * FS, r.1) as Hreturned.
  observe Hdownload (λ r : outcome (option string) * FS,
                       Os.path_exists "/tmp/zerox-temp" r.2) as Hexists.
  observe Hdownload (λ r : outcome (option string) * FS,
                       files r.2 !! "/out/report__final__.md") as Hfile.
  split; [|split; [symmetry; exact Hexists | symmetry; exact Hfile]].
  destruct (stage_failures_propagate
              (Scenario.with_rasterization (Demo.externals Demo.complete)
                 Scenario.broken_document)
              Demo.args Demo.empty_fs fs0
              (OtherError "cannot render the document")
              eq_refl ltac:(reflexivity) eq_refl)
    as [_ Hrasterize].
  apply (Hrasterize "/tmp/zerox-temp/Report (Final)!.pdf" fs0).
  - etransitivity; [exact Hdownload|]. by rewrite <-Hreturned.
  - discriminate.
  - reflexivity.
Defined.

(** X2: a run that returns an output has completed every stage before the
    processing: [file_path] is not empty, the download, started after both
    directories were created, returned a non-empty path, the rasterization
    of that path returned, and the model object was built; no failure of
    one of them is swallowed.  The document name of the output is that of
    the path the download returned. *)
Theorem returned_run_completed_every_stage (E : Externals) (a : Args)
    (fs fs' : FS) (out : Types.ZeroxOutput) :
  zerox E a fs = (Return out, fs') →
  Py.truthy (file_path a) = true ∧
  ∃ local_path fs1 fs2 built,
    download_file E (default "" (file_path a)) (temp_directory E a)
      (prepared E a fs) = (Return (Some local_path), fs1) ∧
    local_path ≠ "" ∧
    convert_pdf_to_images E local_path (temp_directory E a) fs1
    = (Return tt, fs2) ∧
    litellmmodel E (model a) (kwargs a) = Return built ∧
    Types.file_name out = file_name E (raw_file_name local_path).
Proof.
  rewrite zerox_unfold, resolve_input_unfold. intros H.
  destruct (Py.truthy (file_path a)); [|done]. split; [done|].
  destruct (download_file E _ _ _) as [[local_path|e0] fs1]; [|done].
  destruct (Py.truthy local_path) eqn:Hlp; [|done].
  destruct local_path as [local_path|]; [|done]. cbn [default] in H.
  unfold id in H. rewrite rasterize_unfold in H.
  destruct (convert_pdf_to_images E local_path (temp_directory E a) fs1)
    as [[[]|e0] fs2] eqn:Hconv; [|done].
  unfold make_vision_model in H.
  destruct (litellmmodel E (model a) (kwargs a)) as [built|e0] eqn:Hbuilt;
    [|done].
  exists local_path, fs1, fs2, built.
  split; [done|]. split; [by intros ->|]. split; [done|]. split; [done|].
  cbv zeta in H. by injection H as <- _.
Qed.

Lemma returned_run_completed_every_stage_witness :
  ∃ out fs',
    zerox (Demo.externals Demo.complete) Demo.args Demo.empty_fs
    = (Return out, fs') ∧
    ∃ local_path fs1,
      Demo.fetch "/docs/Report (Final)!.pdf" "/tmp/zerox-temp"
        (prepared (Demo.externals Demo.complete) Demo.args Demo.empty_fs)
      = (Return (Some local_path), fs1) ∧
      Types.file_name out
      = file_name (Demo.externals Demo.complete) (raw_file_name local_path).
Proof.
  destruct (zerox (Demo.externals Demo.complete) Demo.args Demo.empty_fs)
    as [[out|e] fs'] eqn:Hrun; [|vm_compute in Hrun; discriminate Hrun].
  exists out, fs'. split; [reflexivity|].
  destruct (returned_run_completed_every_stage _ _ _ _ _ Hrun)
    as (_ & local_path & fs1 & fs2 & built & Hdownload & _ & _ & _ & Hname).
  exists local_path, fs1. split; [exact Hdownload | exact Hname].
Defined.
